(** * Lyra Prompt App: the prompt assembler and the session log

    A shallow embedding of [lyra_app.py], a Streamlit script.  The script is
    re-executed from top to bottom on every user interaction; one execution
    is a "render".

    - Python [str] values are sequences of Unicode code points ([list N]).
    - The answers [dict] is an association list in insertion order.
    - A render is a computation in a small state-and-error monad over the
      files next to the script and the elements sent to the page so far.
    - A CSV file is its rows of text cells, or is marked as unparseable.
      How pandas types the cells of the session log when it reads the file,
      and so how it writes them back, is left open ([Pandas]): the
      theorems hold for whatever it does.  The template table is taken
      with integer ids and text in its other columns. *)

From Stdlib Require Import List NArith ZArith Bool String Ascii Lia.
Import ListNotations.

Set Implicit Arguments.

(** ** Python strings *)

Module Py.

Definition char := N.
Definition str := list char.

(** An ASCII literal of the source. *)
Definition lit (s : string) : str := map N_of_ascii (list_ascii_of_string s).

Definition nl : str := [10%N].

(** [str.isspace] on one code point: the characters [str.strip] removes
    when called without argument. *)
Definition isspace (c : char) : bool :=
  ((9 <=? c) && (c <=? 13) || (28 <=? c) && (c <=? 32)
   || (c =? 133) || (c =? 160) || (c =? 5760)
   || (8192 <=? c) && (c <=? 8202)
   || (c =? 8232) || (c =? 8233) || (c =? 8239) || (c =? 8287)
   || (c =? 12288))%N.

Fixpoint lstrip (s : str) : str :=
  match s with
  | c :: s' => if isspace c then lstrip s' else s
  | [] => []
  end.

Definition rstrip (s : str) : str := rev (lstrip (rev s)).

Definition strip (s : str) : str := rstrip (lstrip s).

Definition str_eq_dec : forall a b : str, {a = b} + {a <> b} :=
  list_eq_dec N.eq_dec.

Definition str_eqb (a b : str) : bool := if str_eq_dec a b then true else false.

(** Truth value of a sequence: non-empty. *)
Definition truthy {A} (l : list A) : bool :=
  match l with [] => false | _ => true end.

(** [sep.join(parts)] *)
Fixpoint join (sep : str) (parts : list str) : str :=
  match parts with
  | [] => []
  | [p] => p
  | p :: rest => p ++ sep ++ join sep rest
  end.

(** Lexicographic order on code points, the order [sorted] uses. *)
Fixpoint str_leb (a b : str) : bool :=
  match a, b with
  | [], _ => true
  | _ :: _, [] => false
  | x :: a', y :: b' => (x <? y)%N || (x =? y)%N && str_leb a' b'
  end.

Fixpoint insert_sorted (x : str) (l : list str) : list str :=
  match l with
  | [] => [x]
  | y :: l' => if str_leb x y then x :: l else y :: insert_sorted x l'
  end.

Definition sorted (l : list str) : list str := fold_right insert_sorted [] l.

(** [Series.unique().tolist()]: distinct values in order of first appearance. *)
Fixpoint unique (l : list str) : list str :=
  match l with
  | [] => []
  | x :: l' => x :: filter (fun y => negb (str_eqb y x)) (unique l')
  end.

(** A [dict] with string keys, in insertion order. *)
Definition dict (V : Type) := list (str * V).

Fixpoint dict_get {V} (k : str) (d : dict V) : option V :=
  match d with
  | [] => None
  | (k', v) :: d' => if str_eqb k k' then Some v else dict_get k d'
  end.

(** [d[k] = v]: an existing key keeps its position. *)
Fixpoint dict_set {V} (k : str) (v : V) (d : dict V) : dict V :=
  match d with
  | [] => [(k, v)]
  | (k', v') :: d' => if str_eqb k k' then (k, v) :: d' else (k', v') :: dict_set k v d'
  end.

Definition keys {V} (d : dict V) : list str := map fst d.

End Py.

Import Py.

(** ** The prompt assembler (lines 92-126) *)

Definition append (lines : list str) (x : str) : list str := lines ++ [x].

(** The bullet of one answer, [f"- {k}: {v}"]. *)
Definition answer_line (kv : str * str) : str :=
  lit "- " ++ fst kv ++ lit ": " ++ snd kv.

(** The list [lines] as it stands at the [return] of line 126. *)
Definition prompt_lines (rough target_ai mode : str) (answers_dict : dict str)
    (tokens extras : str) : list str :=
  let lines := [] in
  let lines := append lines
    (lit "You are Lyra, optimizing a user request for " ++ target_ai ++ lit ".") in
  let lines := append lines
    (lit "Follow the 4-D method: Deconstruct, Diagnose, Develop, Deliver.") in
  let lines := append lines
    (lit "Return a final, ready-to-run prompt for the target AI.") in
  let lines := append lines [] in
  let lines := append lines (lit "=== INPUT ===") in
  let lines := append lines (strip rough) in
  let lines := append lines [] in
  let lines :=
    if str_eqb mode (lit "DETAIL") && truthy answers_dict then
      let lines := append lines (lit "=== USER ANSWERS ===") in
      let lines :=
        fold_left (fun lines kv => append lines (answer_line kv))
                  answers_dict lines in
      append lines []
    else lines in
  let lines := append lines (lit "=== REQUIREMENTS ===") in
  let lines :=
    if truthy (strip tokens)
    then append lines (lit "- Max length/tokens: " ++ strip tokens)
    else lines in
  let lines :=
    if truthy (strip extras)
    then append lines (lit "- Special constraints: " ++ strip extras)
    else lines in
  let lines := append lines
    (lit "- Output must be specific, unambiguous, and formatted for easy copy-paste.") in
  let lines := append lines [] in
  let lines := append lines (lit "=== DELIVERABLE FORMAT ===") in
  let lines := append lines (lit "**Your Optimized Prompt:**") in
  let lines := append lines (lit "[Write the improved prompt here]") in
  let lines := append lines [] in
  let lines := append lines (lit "**Key Improvements:**") in
  let lines := append lines (8226%N :: lit " Bullet point 1") in
  let lines := append lines (8226%N :: lit " Bullet point 2") in
  let lines := append lines [] in
  let lines := append lines
    (lit "**Techniques Applied:** Chain-of-thought (internal), role assignment, context layering, output specs.") in
  let lines := append lines [] in
  let lines := append lines
    (lit "**Pro Tip:** Suggest how to iterate if the first output isn't perfect.") in
  lines.

Definition build_prompt (rough target_ai mode : str) (answers_dict : dict str)
    (tokens extras : str) : str :=
  if negb (truthy (strip rough)) then []
  else join nl (prompt_lines rough target_ai mode answers_dict tokens extras).

(** ** [json.dumps] on a [dict] of strings (default options) *)

Module Json.

Definition hex_digit (d : N) : char := (if d <? 10 then 48 + d else 87 + d)%N.

(** ['{0:04x}'.format(n)] for [n < 0x10000]. *)
Definition hex4 (n : N) : str :=
  [hex_digit (n / 4096 mod 16); hex_digit (n / 256 mod 16);
   hex_digit (n / 16 mod 16); hex_digit (n mod 16)]%N.

Definition escape (c : char) : str :=
  (if c =? 92 then lit "\\"
   else if c =? 34 then [92; 34]
   else if c =? 8 then lit "\b"
   else if c =? 12 then lit "\f"
   else if c =? 10 then lit "\n"
   else if c =? 13 then lit "\r"
   else if c =? 9 then lit "\t"
   else if (32 <=? c) && (c <=? 126) then [c]
   else if c <? 65536 then lit "\u" ++ hex4 c
   else
     let n := c - 65536 in
     let s1 := N.lor 55296 (N.land (N.shiftr n 10) 1023) in
     let s2 := N.lor 56320 (N.land n 1023) in
     lit "\u" ++ hex4 s1 ++ lit "\u" ++ hex4 s2)%N.

Definition encode_str (s : str) : str := [34%N] ++ flat_map escape s ++ [34%N].

Definition dumps (d : dict str) : str :=
  lit "{" ++
  join (lit ", ") (map (fun kv => encode_str (fst kv) ++ lit ": " ++ encode_str (snd kv)) d)
  ++ lit "}".

End Json.

(** ** Tables and files *)

(** A row of [templates.csv], for a table in which pandas finds integers
    in the ID column and text in every cell of the other columns.  A
    readable file with empty or numeric cells elsewhere gives the script
    values this record does not hold; such files are outside the model. *)
Record Template := {
  ID : Z;
  Category : str;
  Rough_Idea : str;
  Tags : str;
  Suggested_Clarifying_Questions : str
}.

(** The [row] dict of lines 145-154. *)
Record HistoryRow := {
  timestamp : str;
  row_target_ai : str;
  row_mode : str;
  row_rough : str;
  answers_json : str;
  row_tokens : str;
  row_extras : str;
  optimized_len : nat
}.

(** What [pd.read_csv] makes of a file: a table, or an error. *)
Inductive csv (R : Type) : Type :=
| Table (rows : list R)
| Unparseable.
Arguments Unparseable {R}.

(** The two files next to the script; [None] is an absent file. *)
Record Files := {
  templates_csv : option (csv Template);
  history_csv : option (csv HistoryRow)
}.

(** [DataFrame.tail(n)] *)
Definition tail {R} (n : nat) (df : list R) : list R :=
  skipn (List.length df - n) df.

(** ** The page *)

Inductive Container := Main | Sidebar | Left | Right | C1 | C2 | C3.

Inductive Element :=
| PageConfig (page_title page_icon layout : str)
| Markdown (body : str) (unsafe_allow_html : bool)
| Caption (body : str)
| Divider
| Subheader (body : str)
| Columns (n : nat)
| Selectbox (label : str) (options : list str) (index : nat)
| Checkbox (label : str) (value : bool)
| TextArea (label value : str) (height : nat) (placeholder : option str)
| TextInput (label value : str)
| Code (body language : str)
| DownloadButton (label data file_name : str) (disabled : bool)
| Button (label : str) (disabled : bool) (help : str)
| Dataframe (rows : list HistoryRow).

(** What the user has entered so far, by widget label; [None] for a widget
    left at its default. *)
Record Widgets := {
  selected : str -> option nat;
  typed : str -> option str;
  checked : str -> option bool
}.

(** What pandas does to the cells of the session log.  [pd.read_csv] types
    each column from its content, so that a later [to_csv] does not write
    every cell back as it was in the file ("007" comes back as "7", "NA"
    as an empty cell); [pd.concat] may change the type of a new cell to
    that of its column.  Both depend on the library alone and are left
    open here.  A frame is kept as the rows of text [to_csv] writes for it.
    - [reread rows row]: the row [row] of a file with rows [rows], as read;
    - [appended dfh row]: the new row [row] once concatenated under the
      frame [dfh]. *)
Record Pandas := {
  reread : list HistoryRow -> HistoryRow -> HistoryRow;
  appended : list HistoryRow -> HistoryRow -> HistoryRow
}.

(** The frame [pd.read_csv] returns for a file with these rows. *)
Definition read_back (p : Pandas) (rows : list HistoryRow) : list HistoryRow :=
  map (reread p rows) rows.

(** [pd.concat([dfh, pd.DataFrame([row])], ignore_index=True)] *)
Definition concat_row (p : Pandas) (dfh : list HistoryRow) (row : HistoryRow)
  : list HistoryRow :=
  dfh ++ [appended p dfh row].

(** What one render takes from outside the script: the clock, the widget
    state, and what pandas does to the cells of the log. *)
Record Run := {
  utcnow_isoformat : str;
  widgets : Widgets;
  pandas : Pandas
}.

Record World := {
  files : Files;
  page : list (Container * Element)
}.

(** ** The script monad: state, and uncaught exceptions *)

Inductive exn := ReadCsvError | KeyError | IndexError.

Inductive Outcome (A : Type) : Type :=
| Ok (a : A)
| Raised (e : exn).
Arguments Raised {A}.

Definition Script (A : Type) : Type := Run -> World -> Outcome A * World.

Definition ret {A} (a : A) : Script A := fun _ w => (Ok a, w).

Definition raise {A} (e : exn) : Script A := fun _ w => (Raised e, w).

Definition bind {A B} (m : Script A) (k : A -> Script B) : Script B :=
  fun r w =>
    match m r w with
    | (Ok a, w') => k a r w'
    | (Raised e, w') => (Raised e, w')
    end.

Declare Scope script_scope.
Delimit Scope script_scope with script.
Notation "x <- m ;; k" := (bind m (fun x => k))
  (at level 61, m at next level, right associativity) : script_scope.
Notation "m ;; k" := (bind m (fun _ => k))
  (at level 61, right associativity) : script_scope.
Open Scope script_scope.

Definition emit (c : Container) (el : Element) : Script unit :=
  fun _ w => (Ok tt, {| files := files w; page := page w ++ [(c, el)] |}).

(** What a select box returns: the option the user chose, or the one at
    the default index. *)
Definition choice (ws : Widgets) (label : str) (options : list str)
    (index : nat) : str :=
  let i := match selected ws label with
           | Some i => if (i <? List.length options)%nat then i else index
           | None => index
           end in
  nth i options [].

(** What a text widget returns: the text the user typed, or the default. *)
Definition text_value (ws : Widgets) (label value : str) : str :=
  match typed ws label with Some s => s | None => value end.

Definition selectbox (c : Container) (label : str) (options : list str)
    (index : nat) : Script str :=
  fun r w =>
    (Ok (choice (widgets r) label options index),
     {| files := files w; page := page w ++ [(c, Selectbox label options index)] |}).

Definition checkbox (c : Container) (label : str) (value : bool) : Script bool :=
  fun r w =>
    (Ok (match checked (widgets r) label with Some b => b | None => value end),
     {| files := files w; page := page w ++ [(c, Checkbox label value)] |}).

Definition text_input (c : Container) (label value : str) : Script str :=
  fun r w =>
    (Ok (text_value (widgets r) label value),
     {| files := files w; page := page w ++ [(c, TextInput label value)] |}).

Definition text_area (c : Container) (label value : str) (height : nat)
    (placeholder : option str) : Script str :=
  fun r w =>
    (Ok (text_value (widgets r) label value),
     {| files := files w;
        page := page w ++ [(c, TextArea label value height placeholder)] |}).

Definition utcnow : Script str := fun r w => (Ok (utcnow_isoformat r), w).

Definition templates_file_exists : Script bool :=
  fun _ w => (Ok (match templates_csv (files w) with Some _ => true | None => false end), w).

Definition history_path_exists : Script bool :=
  fun _ w => (Ok (match history_csv (files w) with Some _ => true | None => false end), w).

Definition read_csv_templates : Script (list Template) :=
  fun _ w =>
    match templates_csv (files w) with
    | Some (Table rows) => (Ok rows, w)
    | _ => (Raised ReadCsvError, w)
    end.

Definition read_csv_history : Script (list HistoryRow) :=
  fun r w =>
    match history_csv (files w) with
    | Some (Table rows) => (Ok (read_back (pandas r) rows), w)
    | _ => (Raised ReadCsvError, w)
    end.

Definition concat (dfh : list HistoryRow) (row : HistoryRow)
  : Script (list HistoryRow) :=
  fun r w => (Ok (concat_row (pandas r) dfh row), w).

Definition to_csv_history (dfh : list HistoryRow) : Script unit :=
  fun _ w =>
    (Ok tt,
     {| files := {| templates_csv := templates_csv (files w);
                    history_csv := Some (Table dfh) |};
        page := page w |}).

(** ** The script, section by section *)

(** The names bound at module level when the right column is done. *)
Record Form := {
  target_ai : str;
  mode : str;
  export_history : bool;
  rough : str;
  answers : dict str;
  tokens : str;
  extras : str;
  optimized : str
}.

Definition BRAND_PRIMARY : str := lit "#6C5CE7".
Definition BRAND_ACCENT : str := lit "#00CEC9".

(** Lines 11-16. *)
Definition load_templates : Script (list Template) :=
  present <- templates_file_exists ;;
  if (present : bool) then read_csv_templates else ret [].

(** The key of [label_map] for one row (line 36). *)
Definition template_label (r : Template) : str :=
  lit "[" ++ Category r ++ lit "] " ++ Rough_Idea r.

(** The distinct categories of the store, sorted (line 33, without the
    leading wildcard). *)
Definition category_list (templates_df : list Template) : list str :=
  sorted (unique (map Category templates_df)).

(** Lines 30-43, for a table as [Template] describes it: [int(r.ID)] is
    the id itself, and the categories are sorted and compared as text. *)
Definition pick_template (templates_df : list Template) : Script (option Template) :=
  if negb (truthy templates_df) (* templates_df.empty *) then
    emit Sidebar (Caption ([9888; 65039]%N ++
      lit " No templates found. You can add templates.csv later.")) ;;
    ret None
  else
    let categories := lit "All" :: category_list templates_df in
    cat_choice <- selectbox Sidebar (lit "Category") categories 0 ;;
    let subset :=
      if str_eqb cat_choice (lit "All") then templates_df
      else filter (fun r => str_eqb (Category r) cat_choice) templates_df in
    let label_map :=
      fold_left (fun d r => dict_set (template_label r) (ID r) d) subset [] in
    pick <- selectbox Sidebar (lit "Pick a template")
                      (lit "(none)" :: keys label_map) 0 ;;
    if negb (str_eqb pick (lit "(none)")) then
      match dict_get pick label_map with
      | None => raise KeyError
      | Some id =>
          match find (fun r => Z.eqb (ID r) id) templates_df with
          | None => raise IndexError
          | Some r => ret (Some r)
          end
      end
    else ret None.

(** Lines 22-46. *)
Definition sidebar (templates_df : list Template)
  : Script (str * str * option Template * bool) :=
  emit Sidebar (Markdown (lit "## " ++ [10024%N] ++ lit " Lyra Prompt App") false) ;;
  emit Sidebar (Caption (lit "Your personal AI prompt consultant " ++ [8212%N] ++
                         lit " type messy, get magic.")) ;;
  target_ai <- selectbox Sidebar (lit "Target AI")
                 [lit "ChatGPT"; lit "Claude"; lit "Gemini"; lit "Other"] 0 ;;
  mode <- selectbox Sidebar (lit "Prompt Style") [lit "DETAIL"; lit "BASIC"] 0 ;;
  emit Sidebar Divider ;;
  emit Sidebar (Markdown (lit "**Load a Starter Template (optional)**") false) ;;
  selected <- pick_template templates_df ;;
  emit Sidebar Divider ;;
  export_history <- checkbox Sidebar (lit "Auto-save session history (CSV)") true ;;
  ret (target_ai, mode, selected, export_history).

(** Lines 49-60. *)
Definition header : Script unit :=
  emit Main (Markdown (join nl
    [ [];
      lit "    <div style='padding:12px 16px;border-radius:16px;";
      lit "        background:linear-gradient(135deg," ++ BRAND_PRIMARY ++ lit ","
        ++ BRAND_ACCENT ++ lit ");";
      lit "        color:#111;font-weight:700;'>";
      lit "      <span style='font-size:20px;'>" ++ [10024%N]
        ++ lit " Lyra Prompt App</span>";
      lit "      <span style='font-size:14px;margin-left:8px;font-weight:500;'>";
      lit "      " ++ [8212%N] ++ lit " Turn rough ideas into optimized prompts.</span>";
      lit "    </div>";
      lit "    " ]) true).

(** The dict comprehension of line 79. *)
Definition collect_answers (q1 q2 q3 : str) : dict str :=
  filter (fun kv => negb (str_eqb (strip (snd kv)) []))
         [(lit "A1", q1); (lit "A2", q2); (lit "A3", q3)].

(** Lines 65-85. *)
Definition left_column (mode : str) (selected : option Template)
  : Script (str * dict str * str * str) :=
  emit Left (Subheader (lit "1) Your Rough Prompt")) ;;
  let default_text :=
    match selected with Some r => Rough_Idea r | None => [] end in
  rough <- text_area Left (lit "Type anything (the messier the better):")
             default_text 120 (Some (lit "e.g., Write me a sales email")) ;;
  emit Left (Subheader (lit "2) Clarifying (auto in DETAIL)")) ;;
  answers <-
    (if str_eqb mode (lit "DETAIL") then
       let hints :=
         match selected with
         | Some r => Suggested_Clarifying_Questions r
         | None => lit "Who is the audience? What outcome? Any constraints (length, tone, format)?"
         end in
       emit Left (Caption (lit "Suggested prompts: " ++ hints)) ;;
       q1 <- text_input Left (lit "Answer 1") [] ;;
       q2 <- text_input Left (lit "Answer 2") [] ;;
       q3 <- text_input Left (lit "Answer 3") [] ;;
       ret (collect_answers q1 q2 q3)
     else ret []) ;;
  emit Left (Subheader (lit "3) Output Specs (optional)")) ;;
  tokens <- text_input Left (lit "Max length / tokens (optional)") [] ;;
  extras <- text_area Left (lit "Special instructions (style guides, constraints)")
              [] 80 None ;;
  ret (rough, answers, tokens, extras).

(** [optimized or "..."] of line 129. *)
Definition shown_prompt (optimized : str) : str :=
  if truthy optimized then optimized
  else 8592%N :: lit " Start by typing a rough prompt on the left.".

(** Lines 88-138. *)
Definition right_column (rough target_ai mode : str) (answers : dict str)
    (tokens extras : str) : Script str :=
  emit Right (Subheader (lit "Your Optimized Prompt")) ;;
  emit Right (Caption (lit "Copy this into your chosen AI (or paste into the chat you already have open).")) ;;
  let optimized := build_prompt rough target_ai mode answers tokens extras in
  emit Right (Code (shown_prompt optimized) (lit "markdown")) ;;
  emit Right (Columns 3) ;;
  emit C1 (DownloadButton (lit "Download .txt") optimized
             (lit "optimized_prompt.txt") (negb (truthy optimized))) ;;
  emit C2 (Button (lit "Copy to Clipboard") true
             (lit "Use Download or manual copy. (Clipboard component can be added later.)")) ;;
  emit C3 (DownloadButton (lit "Download .md") optimized
             (lit "optimized_prompt.md") (negb (truthy optimized))) ;;
  ret optimized.

(** Lines 7-138: everything above the history section. *)
Definition form : Script Form :=
  emit Main (PageConfig (lit "Lyra Prompt App") [10024%N] (lit "wide")) ;;
  templates_df <- load_templates ;;
  sb <- sidebar templates_df ;;
  let '(target_ai, mode, selected, export_history) := sb in
  header ;;
  emit Main (Columns 2) ;;
  lc <- left_column mode selected ;;
  let '(rough, answers, tokens, extras) := lc in
  optimized <- right_column rough target_ai mode answers tokens extras ;;
  ret {| target_ai := target_ai; mode := mode; export_history := export_history;
         rough := rough; answers := answers; tokens := tokens; extras := extras;
         optimized := optimized |}.

(** The [row] dict of lines 145-154. *)
Definition history_row (now : str) (f : Form) : HistoryRow :=
  {| timestamp := now;
     row_target_ai := target_ai f;
     row_mode := mode f;
     row_rough := rough f;
     answers_json := Json.dumps (answers f);
     row_tokens := tokens f;
     row_extras := extras f;
     optimized_len := List.length (optimized f) |}.

(** Lines 141-166. *)
Definition history (f : Form) : Script unit :=
  emit Main Divider ;;
  emit Main (Subheader (lit "Session History")) ;;
  (if export_history f && truthy (optimized f) then
     now <- utcnow ;;
     let row := history_row now f in
     present <- history_path_exists ;;
     dfh <- (if (present : bool) then
               dfh <- read_csv_history ;;
               concat dfh row
             else ret [row]) ;;
     to_csv_history dfh
   else ret tt) ;;
  present <- history_path_exists ;;
  if (present : bool) then
    dfh <- read_csv_history ;;
    emit Main (Dataframe (tail 20 dfh))
  else
    emit Main (Caption (lit "No sessions saved yet. Enable auto-save to log runs.")).

(** One render: the whole script. *)
Definition script : Script Form :=
  f <- form ;;
  history f ;;
  ret f.

(** A render starts from an empty page. *)
Definition render (r : Run) (fs : Files) : Outcome Form * World :=
  script r {| files := fs; page := [] |}.

(** Successive renders, with the result of each: a render sees the files
    the one before it left (as they were when it ended, also when it ended
    with an exception). *)
Fixpoint renders (rs : list Run) (fs : Files) : list (Outcome Form * World) :=
  match rs with
  | [] => []
  | r :: rs' =>
      let res := render r fs in
      res :: renders rs' (files (snd res))
  end.

(** The files after a sequence of renders that started from [fs]. *)
Definition files_after (results : list (Outcome Form * World)) (fs : Files) : Files :=
  last (map (fun res => files (snd res)) results) fs.

(** ** The document as the specification describes it

    The five sections of the document, each as its list of lines.  These
    follow the wording of the specification; the theorems below compare
    them with what [build_prompt] returns. *)

Module Doc.

Definition preamble (target_ai : str) : list str :=
  [ lit "You are Lyra, optimizing a user request for " ++ target_ai ++ lit ".";
    lit "Follow the 4-D method: Deconstruct, Diagnose, Develop, Deliver.";
    lit "Return a final, ready-to-run prompt for the target AI." ].

Definition input_section (rough : str) : list str :=
  [ lit "=== INPUT ==="; strip rough ].

Definition user_answers_header : str := lit "=== USER ANSWERS ===".

Definition user_answers_section (answers : dict str) : list str :=
  user_answers_header :: map (fun kv => lit "- " ++ fst kv ++ lit ": " ++ snd kv) answers.

Definition requirements_header : str := lit "=== REQUIREMENTS ===".

Definition max_length_bullet (max_length : str) : str :=
  lit "- Max length/tokens: " ++ strip max_length.

Definition special_constraints_bullet (extra_instructions : str) : str :=
  lit "- Special constraints: " ++ strip extra_instructions.

Definition closing_bullet : str :=
  lit "- Output must be specific, unambiguous, and formatted for easy copy-paste.".

Definition requirements_section (max_length extra_instructions : str) : list str :=
  [requirements_header]
  ++ (if truthy (strip max_length) then [max_length_bullet max_length] else [])
  ++ (if truthy (strip extra_instructions)
      then [special_constraints_bullet extra_instructions] else [])
  ++ [closing_bullet].

Definition deliverable_format : list str :=
  [ lit "=== DELIVERABLE FORMAT ===";
    lit "**Your Optimized Prompt:**";
    lit "[Write the improved prompt here]";
    [];
    lit "**Key Improvements:**";
    8226%N :: lit " Bullet point 1";
    8226%N :: lit " Bullet point 2";
    [];
    lit "**Techniques Applied:** Chain-of-thought (internal), role assignment, context layering, output specs.";
    [];
    lit "**Pro Tip:** Suggest how to iterate if the first output isn't perfect." ].

(** Sections laid out one after the other with one empty line between
    two of them. *)
Fixpoint blank_line_separated (sections : list (list str)) : list str :=
  match sections with
  | [] => []
  | [s] => s
  | s :: rest => s ++ [[]] ++ blank_line_separated rest
  end.

(** The text of a section: its lines, each ended by a newline except the last. *)
Definition text (section : list str) : str := join nl section.

(** A blank line between two texts. *)
Definition blank_line : str := nl ++ nl.

End Doc.

(** The elements of lines 89-138, for the values of one render. *)
Definition right_elements (f : Form) : list (Container * Element) :=
  [ (Right, Subheader (lit "Your Optimized Prompt"));
    (Right, Caption (lit "Copy this into your chosen AI (or paste into the chat you already have open)."));
    (Right, Code (shown_prompt (optimized f)) (lit "markdown"));
    (Right, Columns 3);
    (C1, DownloadButton (lit "Download .txt") (optimized f)
           (lit "optimized_prompt.txt") (negb (truthy (optimized f))));
    (C2, Button (lit "Copy to Clipboard") true
           (lit "Use Download or manual copy. (Clipboard component can be added later.)"));
    (C3, DownloadButton (lit "Download .md") (optimized f)
           (lit "optimized_prompt.md") (negb (truthy (optimized f)))) ].

(** A computation that touches neither the clock nor the session log: given
    the widget state and the template file, its outcome and the elements it
    adds to the page are fixed, the files stay as they are, and every
    element it adds satisfies [ok]. *)
Definition log_blind {A} (ok : Element -> bool) (m : Script A) : Prop :=
  forall (ws : Widgets) (t : option (csv Template)),
  exists (o : Outcome A) (els : list (Container * Element)),
    forallb (fun ce => ok (snd ce)) els = true
    /\ forall r w,
         widgets r = ws -> templates_csv (files w) = t ->
         m r w = (o, {| files := files w; page := page w ++ els |}).

Definition any_element (el : Element) : bool := true.

Definition no_download (el : Element) : bool :=
  match el with DownloadButton _ _ _ _ => false | _ => true end.

(** ** The lines of a text *)









(** The run of the script went through: it ended without exception. *)
Definition completes (res : Outcome Form * World) : Prop :=
  exists f, fst res = Ok f.

(** The data rows of the session log. *)
Definition log_rows (fs : Files) : list HistoryRow :=
  match history_csv fs with
  | Some (Table rows) => rows
  | _ => []
  end.

(** The log a render leaves, from the rows the file had: lines 144-160.
    A saving render writes back the rows as it read them, then its own. *)
Definition log_after_save (r : Run) (f : Form) (rows : option (list HistoryRow))
  : list HistoryRow :=
  match rows with
  | Some rows =>
      concat_row (pandas r) (read_back (pandas r) rows)
                 (history_row (utcnow_isoformat r) f)
  | None => [history_row (utcnow_isoformat r) f]
  end.

(** The rows of the file, when there is a readable one. *)
Definition file_rows (fs : Files) : option (list HistoryRow) :=
  match history_csv fs with
  | Some (Table rows) => Some rows
  | _ => None
  end.

(** Pandas reads the time stamps as the text they are: an ISO time stamp
    is neither a number nor a marker of a missing value. *)
Definition keeps_timestamps (p : Pandas) : Prop :=
  forall rows row,
    timestamp (reread p rows row) = timestamp row
    /\ timestamp (appended p rows row) = timestamp row.

(** A successful auto-saved render of a non-empty prompt. *)
Definition saved (res : Outcome Form * World) : Prop :=
  exists f, fst res = Ok f /\ export_history f = true /\ optimized f <> [].

(** The download buttons among the elements of a page, in page order. *)
Definition downloads (p : list (Container * Element)) : list (str * str) :=
  flat_map (fun ce => match snd ce with
                      | DownloadButton _ data file_name _ => [(file_name, data)]
                      | _ => []
                      end) p.

(** ** Names for the steps of the template picker

    The values bound inside [pick_template], as functions of the table and
    the widget state. *)

(** [subset], line 35. *)
Definition template_subset (templates_df : list Template) (cat_choice : str)
  : list Template :=
  if str_eqb cat_choice (lit "All") then templates_df
  else filter (fun r => str_eqb (Category r) cat_choice) templates_df.

(** [label_map], line 36. *)
Definition label_map_of (subset : list Template) : dict Z :=
  fold_left (fun d r => dict_set (template_label r) (ID r) d) subset [].

(** [cat_choice], line 34. *)
Definition category_choice (ws : Widgets) (templates_df : list Template) : str :=
  choice ws (lit "Category") (lit "All" :: category_list templates_df) 0.

(** [pick], line 37. *)
Definition template_choice (ws : Widgets) (templates_df : list Template) : str :=
  choice ws (lit "Pick a template")
    (lit "(none)"
     :: keys (label_map_of
                (template_subset templates_df (category_choice ws templates_df))))
    0.

(** [templates_df] as bound by lines 13-16, when loading does not raise. *)
Definition loaded_templates (fs : Files) : list Template :=
  match templates_csv fs with
  | Some (Table rows) => rows
  | _ => []
  end.

(** The last element of the page: what the history section shows. *)
Definition log_display (p : Pandas) (fs : Files) : Element :=
  match history_csv fs with
  | Some _ => Dataframe (tail 20 (read_back p (log_rows fs)))
  | None => Caption (lit "No sessions saved yet. Enable auto-save to log runs.")
  end.

(** Holds of every element except a one-line text input with a label
    other than the length limit's. *)
Definition only_tokens_input (el : Element) : bool :=
  match el with
  | TextInput label _ => str_eqb label (lit "Max length / tokens (optional)")
  | _ => true
  end.

(** ** Sample sessions *)

Module Sample.

(** Nothing entered yet: every widget at its default. *)
Definition untouched : Widgets :=
  {| selected := fun _ => None; typed := fun _ => None; checked := fun _ => None |}.

(** The user types [text] into the text widget labelled [label]. *)
Definition typing (label text : str) (ws : Widgets) : Widgets :=
  {| selected := selected ws;
     typed := fun l => if str_eqb l label then Some text else typed ws l;
     checked := checked ws |}.

Definition sales_email : Widgets :=
  typing (lit "Type anything (the messier the better):")
         (lit "Write me a sales email") untouched.

(** The same, with the first answer filled in (padded with spaces) and the
    second made of spaces only. *)
Definition sales_email_answered : Widgets :=
  typing (lit "Answer 1") (lit "  Small business owners ")
    (typing (lit "Answer 2") (lit "   ") sales_email).

(** A pandas that gives every cell back as it was written. *)
Definition as_written : Pandas :=
  {| reread := fun _ row => row; appended := fun _ row => row |}.

(** A pandas that reads the length limit as a number: "007" comes back
    as "7", whatever else is in the column. *)
Definition numeric_tokens : Pandas :=
  {| reread := fun _ row =>
       {| timestamp := timestamp row; row_target_ai := row_target_ai row;
          row_mode := row_mode row; row_rough := row_rough row;
          answers_json := answers_json row;
          row_tokens := if str_eqb (row_tokens row) (lit "007") then lit "7"
                        else row_tokens row;
          row_extras := row_extras row; optimized_len := optimized_len row |};
     appended := fun _ row => row |}.

Definition at_time (now : str) (ws : Widgets) : Run :=
  {| utcnow_isoformat := now; widgets := ws; pandas := as_written |}.

(** The same render under another pandas. *)
Definition under (p : Pandas) (r : Run) : Run :=
  {| utcnow_isoformat := utcnow_isoformat r; widgets := widgets r; pandas := p |}.

Definition monday : str := lit "2024-01-01T09:00:00".
Definition tuesday : str := lit "2024-01-02T09:00:00".

Definition no_files : Files := {| templates_csv := None; history_csv := None |}.

Definition broken_log : Files :=
  {| templates_csv := None; history_csv := Some Unparseable |}.

Definition blank (fs : Files) : World := {| files := fs; page := [] |}.



(** The names bound by a render of [sales_email]. *)
Definition sales_email_form : Form :=
  {| target_ai := lit "ChatGPT"; mode := lit "DETAIL"; export_history := true;
     rough := lit "Write me a sales email"; answers := [];
     tokens := []; extras := [];
     optimized := build_prompt (lit "Write me a sales email") (lit "ChatGPT")
                    (lit "DETAIL") [] [] [] |}.

(** The names bound by a render of [sales_email_answered]. *)
Definition sales_email_answered_form : Form :=
  {| target_ai := lit "ChatGPT"; mode := lit "DETAIL"; export_history := true;
     rough := lit "Write me a sales email";
     answers := [(lit "A1", lit "  Small business owners ")];
     tokens := []; extras := [];
     optimized := build_prompt (lit "Write me a sales email") (lit "ChatGPT")
                    (lit "DETAIL") [(lit "A1", lit "  Small business owners ")]
                    [] [] |}.

(** A small template store: two rows share the label of the first. *)
Definition email_template : Template :=
  {| ID := 1; Category := lit "Sales"; Rough_Idea := lit "Write me a sales email";
     Tags := lit "email"; Suggested_Clarifying_Questions := lit "Who is the buyer?" |}.

Definition blog_template : Template :=
  {| ID := 2; Category := lit "Content"; Rough_Idea := lit "Draft a blog post";
     Tags := lit "blog"; Suggested_Clarifying_Questions := lit "Which topic?" |}.

Definition store : list Template := [email_template; blog_template].

Definition with_store : Files :=
  {| templates_csv := Some (Table store); history_csv := None |}.

Definition broken_templates : Files :=
  {| templates_csv := Some Unparseable; history_csv := None |}.

(** The user chooses entry [i] of the select box labelled [label]. *)
Definition choosing (label : str) (i : nat) (ws : Widgets) : Widgets :=
  {| selected := fun l => if str_eqb l label then Some i else selected ws l;
     typed := typed ws;
     checked := checked ws |}.

(** The user sets the check box labelled [label]. *)
Definition ticking (label : str) (b : bool) (ws : Widgets) : Widgets :=
  {| selected := selected ws;
     typed := typed ws;
     checked := fun l => if str_eqb l label then Some b else checked ws l |}.

End Sample.

(** * Properties *)

(** ** Strings *)

Section StringFacts.

Lemma truthy_true {A} (l : list A) : truthy l = true <-> l <> [].
Proof. destruct l; simpl; split; congruence. Qed.

Lemma truthy_false {A} (l : list A) : truthy l = false <-> l = [].
Proof. destruct l; simpl; split; congruence. Qed.

Lemma str_eqb_eq (a b : str) : str_eqb a b = true <-> a = b.
Proof. unfold str_eqb; destruct (str_eq_dec a b); split; congruence. Qed.

Lemma str_eqb_neq (a b : str) : str_eqb a b = false <-> a <> b.
Proof. unfold str_eqb; destruct (str_eq_dec a b); split; congruence. Qed.

Lemma str_eqb_refl (a : str) : str_eqb a a = true.
Proof. now apply str_eqb_eq. Qed.

(** [lstrip] removes a prefix made of whitespace only. *)
Lemma lstrip_prefix (s : str) :
  exists pre, s = pre ++ lstrip s /\ forallb isspace pre = true.
Proof.
  induction s as [|c s IH]; simpl.
  - now exists [].
  - destruct (isspace c) eqn:E.
    + destruct IH as (pre & Hs & Hp). exists (c :: pre). simpl.
      rewrite E, Hp. split; [now f_equal | reflexivity].
    + now exists [].
Qed.

Lemma lstrip_nil_iff (s : str) : lstrip s = [] <-> forallb isspace s = true.
Proof.
  induction s as [|c s IH]; simpl; [tauto|].
  destruct (isspace c); simpl; [exact IH | split; discriminate].
Qed.

Lemma forallb_rev {A} (p : A -> bool) (l : list A) :
  forallb p (rev l) = forallb p l.
Proof.
  induction l as [|x l IH]; simpl; [reflexivity|].
  rewrite forallb_app, IH. simpl. rewrite andb_true_r. apply andb_comm.
Qed.

Lemma rstrip_suffix (s : str) :
  exists post, s = rstrip s ++ post /\ forallb isspace post = true.
Proof.
  unfold rstrip. destruct (lstrip_prefix (rev s)) as (pre & Hs & Hp).
  exists (rev pre). split.
  - rewrite <- rev_app_distr, <- Hs. symmetry. apply rev_involutive.
  - now rewrite forallb_rev.
Qed.

Lemma rstrip_nil_iff (s : str) : rstrip s = [] <-> forallb isspace s = true.
Proof.
  unfold rstrip. rewrite <- (forallb_rev isspace s), <- lstrip_nil_iff.
  split; intros H.
  - apply (f_equal (@rev char)) in H. now rewrite rev_involutive in H.
  - now rewrite H.
Qed.

(** [strip] keeps a contiguous piece of its argument and drops only
    whitespace around it. *)
Lemma strip_middle (s : str) :
  exists pre post,
    s = pre ++ strip s ++ post
    /\ forallb isspace pre = true /\ forallb isspace post = true.
Proof.
  unfold strip.
  destruct (lstrip_prefix s) as (pre & Hs & Hp).
  destruct (rstrip_suffix (lstrip s)) as (post & Hl & Hq).
  exists pre, post. repeat split; try assumption.
  now rewrite <- Hl.
Qed.

Lemma strip_nil_iff (s : str) : strip s = [] <-> forallb isspace s = true.
Proof.
  split.
  - intros H. destruct (strip_middle s) as (pre & post & Hs & Hp & Hq).
    rewrite H in Hs. rewrite Hs. simpl. now rewrite forallb_app, Hp, Hq.
  - intros H. unfold strip. apply rstrip_nil_iff.
    apply lstrip_nil_iff in H. now rewrite H.
Qed.

(** The text kept by [lstrip] does not start with whitespace. *)
Lemma lstrip_head (s : str) (c : char) (t : str) :
  lstrip s = c :: t -> isspace c = false.
Proof.
  induction s as [|d s IH]; simpl; [discriminate|].
  destruct (isspace d) eqn:E; [exact IH|].
  intros H. injection H as <- _. exact E.
Qed.

Lemma join_cons (sep p : str) (q : str) (rest : list str) :
  join sep (p :: q :: rest) = p ++ sep ++ join sep (q :: rest).
Proof. reflexivity. Qed.

Lemma join_app (sep : str) (l1 l2 : list str) :
  l1 <> [] -> l2 <> [] ->
  join sep (l1 ++ l2) = join sep l1 ++ sep ++ join sep l2.
Proof.
  intros H1 H2. induction l1 as [|p l1 IH]; [congruence|].
  destruct l1 as [|q l1].
  - destruct l2; [congruence | reflexivity].
  - change ((p :: q :: l1) ++ l2) with (p :: q :: (l1 ++ l2)).
    rewrite !join_cons, <- !app_assoc. do 2 f_equal.
    apply IH. discriminate.
Qed.

End StringFacts.

(** ** The prompt assembler *)

Lemma fold_left_append {A} (f : A -> str) (xs : list A) (lines : list str) :
  fold_left (fun lines x => append lines (f x)) xs lines = lines ++ map f xs.
Proof.
  revert lines. induction xs as [|x xs IH]; intros lines; simpl.
  - now rewrite app_nil_r.
  - rewrite IH. unfold append. now rewrite <- app_assoc.
Qed.

(** The lines the code collects are the sections, in order, with an empty
    line between two sections. *)
Lemma prompt_lines_sections rough target_ai mode answers tokens extras :
  prompt_lines rough target_ai mode answers tokens extras
  = Doc.blank_line_separated
      ([Doc.preamble target_ai; Doc.input_section rough]
       ++ (if str_eqb mode (lit "DETAIL") && truthy answers
           then [Doc.user_answers_section answers] else [])
       ++ [Doc.requirements_section tokens extras; Doc.deliverable_format]).
Proof.
  unfold prompt_lines, Doc.requirements_section, Doc.user_answers_section.
  rewrite fold_left_append. unfold append, answer_line.
  destruct (str_eqb mode (lit "DETAIL") && truthy answers);
    destruct (truthy (strip tokens)); destruct (truthy (strip extras));
    cbn [app Doc.blank_line_separated Doc.preamble Doc.input_section
         Doc.deliverable_format];
    repeat (rewrite <- app_assoc; cbn [app]); reflexivity.
Qed.

Lemma text_blank_line_separated (sections : list (list str)) :
  Forall (fun s => s <> []) sections ->
  join nl (Doc.blank_line_separated sections)
  = join Doc.blank_line (map Doc.text sections).
Proof.
  induction 1 as [|s rest Hs Hrest IH]; [reflexivity|].
  destruct rest as [|s' rest]; [reflexivity|].
  change (Doc.blank_line_separated (s :: s' :: rest))
    with (s ++ [[]] ++ Doc.blank_line_separated (s' :: rest)).
  assert (Hne : Doc.blank_line_separated (s' :: rest) <> []).
  { inversion Hrest as [|? ? Hs' _]; subst.
    destruct rest; simpl; [assumption|].
    destruct s'; [congruence | discriminate]. }
  rewrite join_app by (assumption || discriminate).
  rewrite join_app by (assumption || discriminate).
  rewrite IH. cbn [map]. rewrite join_cons.
  unfold Doc.blank_line, Doc.text. cbn [join app].
  now rewrite <- ?app_assoc.
Qed.

(** The returned text, for a rough idea that does not trim to nothing. *)
Lemma build_prompt_sections rough target_ai mode answers tokens extras :
  strip rough <> [] ->
  build_prompt rough target_ai mode answers tokens extras
  = join Doc.blank_line
      ([Doc.text (Doc.preamble target_ai); Doc.text (Doc.input_section rough)]
       ++ (if str_eqb mode (lit "DETAIL") && truthy answers
           then [Doc.text (Doc.user_answers_section answers)] else [])
       ++ [Doc.text (Doc.requirements_section tokens extras);
           Doc.text Doc.deliverable_format]).
Proof.
  intros H. unfold build_prompt.
  apply truthy_true in H. rewrite H. cbn [negb].
  rewrite prompt_lines_sections, text_blank_line_separated.
  - destruct (str_eqb mode (lit "DETAIL") && truthy answers); reflexivity.
  - unfold Doc.requirements_section.
    destruct (str_eqb mode (lit "DETAIL") && truthy answers);
      repeat constructor; discriminate.
Qed.

(** C1: when the rough idea is empty or made of whitespace only, so that it
    trims to the empty string, [build_prompt] returns the empty string,
    whatever the other five arguments are. *)
Theorem C1_blank_rough_idea_gives_empty_prompt
    (rough target_ai mode : str) (answers : dict str) (tokens extras : str) :
  forallb isspace rough = true ->
  strip rough = []
  /\ build_prompt rough target_ai mode answers tokens extras = [].
Proof.
  intros H. apply strip_nil_iff in H. split; [exact H|].
  unfold build_prompt. now rewrite H.
Qed.

Lemma C1_witness :
  forallb isspace [32; 9; 10; 160; 8195]%N = true
  /\ build_prompt [32; 9; 10; 160; 8195]%N (lit "Claude") (lit "DETAIL")
       [(lit "A1", lit "engineers")] (lit "200") (lit "formal tone") = [].
Proof.
  split; [reflexivity|].
  apply (C1_blank_rough_idea_gives_empty_prompt
           [32; 9; 10; 160; 8195]%N (lit "Claude") (lit "DETAIL")
           [(lit "A1", lit "engineers")] (lit "200") (lit "formal tone")).
  reflexivity.
Defined.

(** C2: when the rough idea does not trim to nothing, the returned text is
    the preamble, the INPUT section, the USER ANSWERS section (only under
    its condition), the REQUIREMENTS section and the DELIVERABLE FORMAT
    section, in this order, with a blank line between two sections; the
    INPUT section is its heading followed by the trimmed rough idea, which
    is a contiguous piece of the rough idea as typed, with only whitespace
    cut off on either side. *)
Theorem C2_sections_in_order
    (rough target_ai mode : str) (answers : dict str) (tokens extras : str) :
  strip rough <> [] ->
  build_prompt rough target_ai mode answers tokens extras
  = join Doc.blank_line
      ([Doc.text (Doc.preamble target_ai);
        lit "=== INPUT ===" ++ nl ++ strip rough]
       ++ (if str_eqb mode (lit "DETAIL") && truthy answers
           then [Doc.text (Doc.user_answers_section answers)] else [])
       ++ [Doc.text (Doc.requirements_section tokens extras);
           Doc.text Doc.deliverable_format])
  /\ exists pre post,
       rough = pre ++ strip rough ++ post
       /\ forallb isspace pre = true /\ forallb isspace post = true.
Proof.
  intros H. split.
  - now rewrite build_prompt_sections.
  - apply strip_middle.
Qed.

Lemma C2_witness :
  strip (lit "  Write me   a sales email ") <> []
  /\ strip (lit "  Write me   a sales email ") = lit "Write me   a sales email"
  /\ build_prompt (lit "  Write me   a sales email ") (lit "ChatGPT") (lit "BASIC")
       [] [] []
     = join Doc.blank_line
         [Doc.text (Doc.preamble (lit "ChatGPT"));
          lit "=== INPUT ===" ++ nl ++ lit "Write me   a sales email";
          Doc.text (Doc.requirements_section [] []);
          Doc.text Doc.deliverable_format].
Proof.
  assert (H : strip (lit "  Write me   a sales email ") <> [])
    by (vm_compute; discriminate).
  split; [exact H|]. split; [reflexivity|].
  exact (proj1 (@C2_sections_in_order (lit "  Write me   a sales email ")
                  (lit "ChatGPT") (lit "BASIC") [] [] [] H)).
Defined.

Lemma wants_answers_iff (mode : str) (answers : dict str) :
  str_eqb mode (lit "DETAIL") && truthy answers = true
  <-> mode = lit "DETAIL" /\ answers <> [].
Proof. now rewrite andb_true_iff, str_eqb_eq, truthy_true. Qed.

(** ** The lines of the document *)























(** ** The script monad *)

Lemma bind_ok_inv {A B} (m : Script A) (k : A -> Script B) r w b w' :
  bind m k r w = (Ok b, w') ->
  exists a w1, m r w = (Ok a, w1) /\ k a r w1 = (Ok b, w').
Proof.
  unfold bind. destruct (m r w) as [[a|e] w1]; [|discriminate].
  intros H. now exists a, w1.
Qed.

Lemma world_eta (w : World) :
  w = {| files := files w; page := page w ++ [] |}.
Proof. destruct w; simpl. now rewrite app_nil_r. Qed.

Section LogBlind.

Variable ok : Element -> bool.

Lemma log_blind_ret {A} (a : A) : log_blind ok (ret a).
Proof.
  intros ws t. exists (Ok a), []. split; [reflexivity|].
  intros r w _ _. unfold ret. f_equal. apply world_eta.
Qed.

Lemma log_blind_raise {A} (e : exn) : log_blind ok (@raise A e).
Proof.
  intros ws t. exists (Raised e), []. split; [reflexivity|].
  intros r w _ _. unfold raise. f_equal. apply world_eta.
Qed.

Lemma log_blind_bind {A B} (m : Script A) (k : A -> Script B) :
  log_blind ok m -> (forall a, log_blind ok (k a)) -> log_blind ok (bind m k).
Proof.
  intros Hm Hk ws t. destruct (Hm ws t) as (o & els & Hok & H).
  destruct o as [a|e].
  - destruct (Hk a ws t) as (o' & els' & Hok' & H').
    exists o', (els ++ els'). split.
    + now rewrite forallb_app, Hok, Hok'.
    + intros r w Hr Hw. unfold bind. rewrite (H r w Hr Hw).
      cbv beta iota.
      rewrite (H' r {| files := files w; page := page w ++ els |} Hr Hw).
      cbn [files page]. now rewrite app_assoc.
  - exists (Raised e), els. split; [assumption|].
    intros r w Hr Hw. unfold bind. now rewrite (H r w Hr Hw).
Qed.

Lemma log_blind_emit (c : Container) (el : Element) :
  ok el = true -> log_blind ok (emit c el).
Proof.
  intros Hel ws t. exists (Ok tt), [(c, el)]. split.
  - cbn. now rewrite Hel.
  - reflexivity.
Qed.

Lemma log_blind_selectbox c label options index :
  ok (Selectbox label options index) = true ->
  log_blind ok (selectbox c label options index).
Proof.
  intros Hel ws t.
  exists (Ok (choice ws label options index)), [(c, Selectbox label options index)].
  split; [cbn; now rewrite Hel|]. intros r w <- _. reflexivity.
Qed.

Lemma log_blind_checkbox c label value :
  ok (Checkbox label value) = true -> log_blind ok (checkbox c label value).
Proof.
  intros Hel ws t.
  exists (Ok (match checked ws label with Some b => b | None => value end)),
         [(c, Checkbox label value)].
  split; [cbn; now rewrite Hel|]. intros r w <- _. reflexivity.
Qed.

Lemma log_blind_text_input c label value :
  ok (TextInput label value) = true -> log_blind ok (text_input c label value).
Proof.
  intros Hel ws t.
  exists (Ok (text_value ws label value)), [(c, TextInput label value)].
  split; [cbn; now rewrite Hel|]. intros r w <- _. reflexivity.
Qed.

Lemma log_blind_text_area c label value height placeholder :
  ok (TextArea label value height placeholder) = true ->
  log_blind ok (text_area c label value height placeholder).
Proof.
  intros Hel ws t.
  exists (Ok (text_value ws label value)),
         [(c, TextArea label value height placeholder)].
  split; [cbn; now rewrite Hel|]. intros r w <- _. reflexivity.
Qed.

Lemma log_blind_templates_file_exists : log_blind ok templates_file_exists.
Proof.
  intros ws t.
  exists (Ok (match t with Some _ => true | None => false end)), [].
  split; [reflexivity|]. intros r w _ <-. unfold templates_file_exists.
  f_equal. apply world_eta.
Qed.

Lemma log_blind_read_csv_templates : log_blind ok read_csv_templates.
Proof.
  intros ws t.
  exists (match t with Some (Table rows) => Ok rows | _ => Raised ReadCsvError end), [].
  split; [reflexivity|]. intros r w _ <-. unfold read_csv_templates.
  destruct (templates_csv (files w)) as [[rows|]|]; f_equal; apply world_eta.
Qed.

End LogBlind.

Ltac log_blind_step :=
  first
    [ apply log_blind_bind; [|intros ?]
    | apply log_blind_ret
    | apply log_blind_raise
    | apply log_blind_emit; reflexivity
    | apply log_blind_selectbox; reflexivity
    | apply log_blind_checkbox; reflexivity
    | apply log_blind_text_input; reflexivity
    | apply log_blind_text_area; reflexivity
    | apply log_blind_templates_file_exists
    | apply log_blind_read_csv_templates
    | match goal with
      | |- log_blind _ (if ?b then _ else _) => destruct b
      | |- log_blind _ (match ?x with _ => _ end) => destruct x
      end ].

Lemma load_templates_log_blind ok : log_blind ok load_templates.
Proof. unfold load_templates. repeat log_blind_step. Qed.

Lemma sidebar_log_blind df : log_blind no_download (sidebar df).
Proof. unfold sidebar, pick_template. repeat log_blind_step. Qed.

Lemma left_column_log_blind mode selected :
  log_blind no_download (left_column mode selected).
Proof. unfold left_column. repeat log_blind_step. Qed.

Lemma right_column_log_blind rough target_ai mode answers tokens extras :
  log_blind any_element (right_column rough target_ai mode answers tokens extras).
Proof. unfold right_column. repeat log_blind_step. Qed.

Lemma log_blind_weaken {A} (m : Script A) :
  log_blind no_download m -> log_blind any_element m.
Proof.
  intros H ws t. destruct (H ws t) as (o & els & _ & Hrun).
  exists o, els. split; [|assumption].
  apply forallb_forall. reflexivity.
Qed.

(** Everything above the history section ignores the clock and the session
    log, and leaves the files alone. *)
Lemma form_log_blind : log_blind any_element form.
Proof.
  unfold form, header.
  repeat first
    [ apply log_blind_weaken; (apply sidebar_log_blind || apply left_column_log_blind)
    | apply load_templates_log_blind
    | apply right_column_log_blind
    | log_blind_step ].
Qed.

Lemma log_blind_run {A} ok (m : Script A) (r : Run) (w : World) :
  log_blind ok m ->
  exists o els,
    forallb (fun ce => ok (snd ce)) els = true
    /\ m r w = (o, {| files := files w; page := page w ++ els |}).
Proof.
  intros H. destruct (H (widgets r) (templates_csv (files w))) as (o & els & Hok & Hrun).
  exists o, els. split; [assumption|]. now apply Hrun.
Qed.

Lemma log_blind_ok_inv {A} ok (m : Script A) r w a w' :
  log_blind ok m ->
  m r w = (Ok a, w') ->
  exists els,
    forallb (fun ce => ok (snd ce)) els = true
    /\ w' = {| files := files w; page := page w ++ els |}.
Proof.
  intros Hm H. destruct (log_blind_run r w Hm) as (o & els & Hok & E).
  rewrite E in H. injection H as _ <-. now exists els.
Qed.

Lemma right_column_run rough target_ai mode answers tokens extras r w :
  right_column rough target_ai mode answers tokens extras r w
  = (Ok (build_prompt rough target_ai mode answers tokens extras),
     {| files := files w;
        page := page w ++
          right_elements
            {| target_ai := target_ai; mode := mode; export_history := true;
               rough := rough; answers := answers; tokens := tokens;
               extras := extras;
               optimized := build_prompt rough target_ai mode answers tokens extras |}
     |}).
Proof.
  unfold right_column, bind, emit, ret, right_elements.
  cbn [files page optimized]. repeat rewrite <- app_assoc. reflexivity.
Qed.

(** The values the left column binds, from the widget state. *)
Lemma left_column_values mode selected r w rough answers tokens extras w' :
  left_column mode selected r w = (Ok (rough, answers, tokens, extras), w') ->
  rough = text_value (widgets r) (lit "Type anything (the messier the better):")
            (match selected with Some t => Rough_Idea t | None => [] end)
  /\ answers = (if str_eqb mode (lit "DETAIL")
                then collect_answers
                       (text_value (widgets r) (lit "Answer 1") [])
                       (text_value (widgets r) (lit "Answer 2") [])
                       (text_value (widgets r) (lit "Answer 3") [])
                else [])
  /\ tokens = text_value (widgets r) (lit "Max length / tokens (optional)") []
  /\ extras = text_value (widgets r)
                (lit "Special instructions (style guides, constraints)") [].
Proof.
  unfold left_column, bind, emit, ret, text_input, text_area.
  destruct (str_eqb mode (lit "DETAIL")); intros H; injection H as <- <- <- <- _;
    repeat split.
Qed.

(** What a render has done when it reaches the history section. *)
Lemma form_inv r w f w' :
  form r w = (Ok f, w') ->
  exists before,
    w' = {| files := files w; page := page w ++ before ++ right_elements f |}
    /\ forallb (fun ce => no_download (snd ce)) before = true
    /\ optimized f
       = build_prompt (rough f) (target_ai f) (mode f) (answers f) (tokens f) (extras f)
    /\ answers f
       = (if str_eqb (mode f) (lit "DETAIL")
          then collect_answers
                 (text_value (widgets r) (lit "Answer 1") [])
                 (text_value (widgets r) (lit "Answer 2") [])
                 (text_value (widgets r) (lit "Answer 3") [])
          else []).
Proof.
  unfold form. intros H.
  apply bind_ok_inv in H as (? & w1 & H1 & H).
  apply bind_ok_inv in H as (df & w2 & H2 & H).
  apply bind_ok_inv in H as ([[[ta md] sel] eh] & w3 & H3 & H).
  apply bind_ok_inv in H as (? & w4 & H4 & H).
  apply bind_ok_inv in H as (? & w5 & H5 & H).
  apply bind_ok_inv in H as ([[[ro an] tk] ex] & w6 & H6 & H).
  apply bind_ok_inv in H as (op & w7 & H7 & H).
  unfold ret in H. injection H as <- <-.
  rewrite right_column_run in H7. injection H7 as <- <-.
  destruct (left_column_values _ _ _ _ H6) as (_ & Han & _ & _).
  apply (log_blind_ok_inv (ok:=no_download)) in H1 as (els1 & Hok1 & ->);
    [|now apply log_blind_emit].
  apply (log_blind_ok_inv (ok:=no_download)) in H2 as (els2 & Hok2 & ->);
    [|apply load_templates_log_blind].
  apply (log_blind_ok_inv (ok:=no_download)) in H3 as (els3 & Hok3 & ->);
    [|apply sidebar_log_blind].
  apply (log_blind_ok_inv (ok:=no_download)) in H4 as (els4 & Hok4 & ->);
    [|now apply log_blind_emit].
  apply (log_blind_ok_inv (ok:=no_download)) in H5 as (els5 & Hok5 & ->);
    [|now apply log_blind_emit].
  apply (log_blind_ok_inv (ok:=no_download)) in H6 as (els6 & Hok6 & ->);
    [|apply left_column_log_blind].
  cbn [files page].
  exists (els1 ++ els2 ++ els3 ++ els4 ++ els5 ++ els6).
  split; [|split; [|split]].
  - f_equal. repeat rewrite <- app_assoc. reflexivity.
  - repeat rewrite forallb_app.
    now rewrite Hok1, Hok2, Hok3, Hok4, Hok5, Hok6.
  - reflexivity.
  - exact Han.
Qed.

(** ** Template selection never fails *)

Lemma dict_get_keys {V} (k : str) (d : dict V) :
  In k (keys d) -> exists v, dict_get k d = Some v /\ In (k, v) d.
Proof.
  induction d as [|[k' v'] d IH]; simpl; [contradiction|].
  intros H. destruct (str_eqb k k') eqn:E.
  - apply str_eqb_eq in E. subst k'. exists v'. split; [reflexivity | now left].
  - apply str_eqb_neq in E. destruct H as [H | H]; [congruence|].
    destruct (IH H) as (v & Hg & Hin). exists v. split; [assumption | now right].
Qed.

Lemma dict_set_in {V} (k : str) (v : V) (d : dict V) (kv : str * V) :
  In kv (dict_set k v d) -> kv = (k, v) \/ In kv d.
Proof.
  induction d as [|[k' v'] d IH]; simpl.
  - intros [H | []]. now left.
  - destruct (str_eqb k k'); simpl.
    + intros [H | H]; [now left | now right; right].
    + intros [H | H]; [now right; left|].
      destruct (IH H) as [H' | H']; [now left | now right; right].
Qed.

(** Every id in the label map is the id of one of the rows it was built from. *)
Lemma label_map_ids (rows : list Template) (acc : dict Z) (kv : str * Z) :
  In kv (fold_left (fun d r => dict_set (template_label r) (ID r) d) rows acc) ->
  In kv acc \/ exists r, In r rows /\ snd kv = ID r.
Proof.
  revert acc. induction rows as [|r rows IH]; intros acc; simpl; [now left|].
  intros H. destruct (IH _ H) as [H' | (r' & Hin & Hid)].
  - apply dict_set_in in H'. destruct H' as [-> | H']; [|now left].
    right. exists r. split; [now left | reflexivity].
  - right. exists r'. split; [now right | assumption].
Qed.

Lemma choice_in ws label (options : list str) (index : nat) :
  (index < List.length options)%nat ->
  In (choice ws label options index) options.
Proof.
  intros H. unfold choice. apply nth_In.
  destruct (selected ws label) as [i|]; [|assumption].
  destruct (i <? List.length options)%nat eqn:E; [|assumption].
  now apply Nat.ltb_lt.
Qed.

Lemma find_by_id (df : list Template) (r : Template) :
  In r df -> exists r', find (fun x => Z.eqb (ID x) (ID r)) df = Some r'.
Proof.
  intros H. destruct (find (fun x => Z.eqb (ID x) (ID r)) df) as [r'|] eqn:E.
  - now exists r'.
  - pose proof (find_none _ _ E r H) as Hf. cbv beta in Hf.
    rewrite Z.eqb_refl in Hf. discriminate.
Qed.

Lemma pick_template_ok (df : list Template) (r : Run) (w : World) :
  exists sel w', pick_template df r w = (Ok sel, w').
Proof.
  unfold pick_template. destruct (negb (truthy df)).
  - unfold bind, emit, ret. now eexists _, _.
  - unfold bind, selectbox.
    set (cat_choice := choice _ (lit "Category") _ _).
    set (subset := if str_eqb cat_choice (lit "All") then df else _).
    set (label_map :=
           fold_left (fun d x => dict_set (template_label x) (ID x) d) subset []).
    set (pick := choice _ (lit "Pick a template") _ _).
    assert (Hsub : forall x, In x subset -> In x df).
    { unfold subset. destruct (str_eqb cat_choice (lit "All")); [trivial|].
      intros x Hx. apply filter_In in Hx. tauto. }
    destruct (negb (str_eqb pick (lit "(none)"))) eqn:E;
      [|unfold ret; now eexists _, _].
    apply negb_true_iff, str_eqb_neq in E.
    assert (Hin : In pick (lit "(none)" :: keys label_map)).
    { apply choice_in. simpl. lia. }
    destruct Hin as [Hin | Hin]; [congruence|].
    destruct (dict_get_keys _ _ Hin) as (id & -> & Hkv).
    apply label_map_ids in Hkv as [[] | (x & Hx & Hid)].
    simpl in Hid. subst id.
    destruct (find_by_id _ _ (Hsub _ Hx)) as (r' & ->).
    unfold ret. now eexists _, _.
Qed.

(** ** The form is rendered whenever the template file can be read *)

Lemma sidebar_ok (df : list Template) (r : Run) (w : World) :
  exists x w', sidebar df r w = (Ok x, w').
Proof.
  unfold sidebar, bind, emit, selectbox, checkbox. cbv beta iota.
  match goal with
  | |- context [pick_template df r ?W] =>
      destruct (pick_template_ok df r W) as (sel & w' & E); rewrite E
  end.
  unfold ret. now eexists _, _.
Qed.

Lemma left_column_ok mode selected (r : Run) (w : World) :
  exists x w', left_column mode selected r w = (Ok x, w').
Proof.
  unfold left_column, bind, emit, text_input, text_area, ret.
  destruct (str_eqb mode (lit "DETAIL")); cbv beta iota zeta;
    eexists _, _; reflexivity.
Qed.

Lemma load_templates_run (r : Run) (w : World) :
  load_templates r w
  = (match templates_csv (files w) with
     | None => Ok []
     | Some (Table rows) => Ok rows
     | Some Unparseable => Raised ReadCsvError
     end, w).
Proof.
  unfold load_templates, bind, templates_file_exists, read_csv_templates, ret.
  cbv beta iota.
  destruct (templates_csv (files w)) as [[rows|]|] eqn:E;
    cbv beta iota; rewrite ?E; reflexivity.
Qed.

Lemma form_ok (r : Run) (w : World) :
  templates_csv (files w) <> Some Unparseable ->
  exists f w', form r w = (Ok f, w').
Proof.
  intros Ht. unfold form.
  unfold bind at 1. unfold emit at 1. cbv beta iota.
  unfold bind at 1. rewrite load_templates_run. cbn [files].
  set (df := match templates_csv (files w) with
             | None => [] | Some (Table rows) => rows | Some Unparseable => []
             end).
  replace (match templates_csv (files w) with
           | None => Ok [] | Some (Table rows) => Ok rows
           | Some Unparseable => Raised ReadCsvError end) with (Ok df)
    by (unfold df; destruct (templates_csv (files w)) as [[rows|]|]; congruence).
  cbv beta iota.
  unfold bind at 1.
  match goal with
  | |- context [sidebar df r ?W] =>
      destruct (sidebar_ok df r W) as ([[[ta md] sel] eh] & w3 & E); rewrite E
  end.
  unfold bind at 1. unfold header at 1. unfold emit at 1. cbv beta iota.
  unfold bind at 1. unfold emit at 1. cbv beta iota.
  unfold bind at 1.
  match goal with
  | |- context [left_column md sel r ?W] =>
      destruct (left_column_ok md sel r W) as ([[[ro an] tk] ex] & w6 & E6);
      rewrite E6
  end.
  unfold bind at 1. rewrite right_column_run. unfold ret. now eexists _, _.
Qed.

Lemma form_templates_unparseable (r : Run) (w : World) :
  templates_csv (files w) = Some Unparseable ->
  form r w
  = (Raised ReadCsvError,
     {| files := files w;
        page := page w ++
          [(Main, PageConfig (lit "Lyra Prompt App") [10024%N] (lit "wide"))] |}).
Proof.
  intros Ht. unfold form.
  unfold bind at 1. unfold emit at 1. cbv beta iota.
  unfold bind at 1. rewrite load_templates_run. cbn [files]. now rewrite Ht.
Qed.

(** ** The history section *)

Ltac run_history :=
  unfold history, bind, emit, utcnow, history_path_exists, read_csv_history,
    concat, to_csv_history, ret, log_display, log_rows, log_after_save,
    file_rows;
  cbv beta iota; cbn [files page history_csv templates_csv].

Lemma history_saves (f : Form) (r : Run) (w : World) :
  history_csv (files w) <> Some Unparseable ->
  export_history f && truthy (optimized f) = true ->
  let rows := log_after_save r f (file_rows (files w)) in
  history f r w
  = (Ok tt,
     {| files := {| templates_csv := templates_csv (files w);
                    history_csv := Some (Table rows) |};
        page := page w ++ [(Main, Divider);
                           (Main, Subheader (lit "Session History"));
                           (Main, Dataframe (tail 20 (read_back (pandas r) rows)))] |}).
Proof.
  intros Hh Hc. run_history. rewrite Hc.
  destruct (history_csv (files w)) as [[rows0|]|] eqn:E; [| congruence |];
    repeat (progress (cbv beta iota;
                      cbn [files page history_csv templates_csv]; rewrite ?E));
    repeat rewrite <- app_assoc; reflexivity.
Qed.

Lemma history_keeps (f : Form) (r : Run) (w : World) :
  history_csv (files w) <> Some Unparseable ->
  export_history f && truthy (optimized f) = false ->
  history f r w
  = (Ok tt,
     {| files := files w;
        page := page w ++
          [(Main, Divider);
           (Main, Subheader (lit "Session History"));
           (Main, log_display (pandas r) (files w))] |}).
Proof.
  intros Hh Hc. run_history. rewrite Hc.
  destruct (history_csv (files w)) as [[rows0|]|] eqn:E; [| congruence |];
    repeat (progress (cbv beta iota;
                      cbn [files page history_csv templates_csv]; rewrite ?E));
    repeat rewrite <- app_assoc; reflexivity.
Qed.

(** An unreadable log ends the run in the history section, before
    anything is written or shown there. *)
Lemma history_unreadable (f : Form) (r : Run) (w : World) :
  history_csv (files w) = Some Unparseable ->
  history f r w
  = (Raised ReadCsvError,
     {| files := files w;
        page := page w ++ [(Main, Divider);
                           (Main, Subheader (lit "Session History"))] |}).
Proof.
  intros Hh. run_history.
  destruct (export_history f && truthy (optimized f));
    repeat (progress (cbv beta iota;
                      cbn [files page history_csv templates_csv]; rewrite ?Hh));
    repeat rewrite <- app_assoc; reflexivity.
Qed.

Lemma history_saves_or_keeps_ok (f : Form) (r : Run) (w : World) :
  history_csv (files w) <> Some Unparseable ->
  fst (history f r w) = Ok tt.
Proof.
  intros Hh. destruct (export_history f && truthy (optimized f)) eqn:Ec.
  - now rewrite history_saves.
  - now rewrite history_keeps.
Qed.

Lemma script_run (r : Run) (w : World) :
  script r w
  = match form r w with
    | (Ok f, w1) =>
        match history f r w1 with
        | (Ok _, w2) => (Ok f, w2)
        | (Raised e, w2) => (Raised e, w2)
        end
    | (Raised e, w1) => (Raised e, w1)
    end.
Proof.
  unfold script, bind, ret. destruct (form r w) as [[f|e] w1]; [|reflexivity].
  now destruct (history f r w1) as [[[]|e] w2].
Qed.

Lemma downloads_app (p q : list (Container * Element)) :
  downloads (p ++ q) = downloads p ++ downloads q.
Proof. apply flat_map_app. Qed.

Lemma downloads_none (p : list (Container * Element)) :
  forallb (fun ce => no_download (snd ce)) p = true -> downloads p = [].
Proof.
  induction p as [|[c el] p IH]; [reflexivity|].
  cbn [forallb snd]. intros H. apply andb_true_iff in H as [Hel Hp].
  unfold downloads. cbn [flat_map snd]. fold (downloads p). rewrite (IH Hp).
  now destruct el.
Qed.

(** What the history section adds to the page never is a download button,
    and it comes after everything else. *)
Lemma script_page (r : Run) (w : World) (f : Form) (w1 : World) :
  form r w = (Ok f, w1) ->
  exists extra,
    page (snd (script r w)) = page w1 ++ extra /\ downloads extra = [].
Proof.
  intros Hf. rewrite script_run, Hf.
  destruct (history_csv (files w1)) as [[rows|]|] eqn:Eh.
  1, 3: assert (Hh : history_csv (files w1) <> Some Unparseable) by congruence;
    destruct (export_history f && truthy (optimized f)) eqn:Ec;
    [ rewrite (history_saves _ r _ Hh Ec) | rewrite (history_keeps _ r _ Hh Ec) ];
    cbn [snd page]; eexists; (split; [reflexivity|]);
    unfold log_display; rewrite ?Eh; reflexivity.
  rewrite (history_unreadable _ r _ Eh). cbn [snd page].
  eexists. split; reflexivity.
Qed.

(** ** The claims about a render *)

(** C5: [build_prompt] is a function of its six arguments only.  In any two
    renders that reach the call, whatever their clocks and whatever is in
    the session log, the prompt is [build_prompt] of the six values bound
    at that point, so equal arguments give equal prompts; the files are the
    same after the call (and the display of its result) as before the
    render; and with equal widget states and template files, the clock and
    the session log have no influence on any of the values bound. *)
Theorem C5_build_prompt_pure (r1 r2 : Run) (w1 w2 : World) (f1 f2 : Form) :
  fst (form r1 w1) = Ok f1 ->
  fst (form r2 w2) = Ok f2 ->
  optimized f1
  = build_prompt (rough f1) (target_ai f1) (mode f1) (answers f1) (tokens f1) (extras f1)
  /\ files (snd (form r1 w1)) = files w1
  /\ (rough f1 = rough f2 -> target_ai f1 = target_ai f2 -> mode f1 = mode f2 ->
      answers f1 = answers f2 -> tokens f1 = tokens f2 -> extras f1 = extras f2 ->
      optimized f1 = optimized f2)
  /\ (widgets r1 = widgets r2 ->
      templates_csv (files w1) = templates_csv (files w2) ->
      f1 = f2).
Proof.
  intros H1 H2.
  destruct (form r1 w1) as [o1 w1'] eqn:E1. destruct (form r2 w2) as [o2 w2'] eqn:E2.
  cbn [fst snd] in *. subst o1 o2.
  destruct (form_inv _ _ E1) as (b1 & -> & _ & Ho1 & _).
  destruct (form_inv _ _ E2) as (b2 & -> & _ & Ho2 & _).
  split; [exact Ho1|]. split; [reflexivity|]. split.
  - intros Hr Ht Hm Ha Hk He. rewrite Ho1, Ho2. congruence.
  - intros Hw Ht.
    destruct (form_log_blind (widgets r1) (templates_csv (files w1)))
      as (o & els & _ & Hrun).
    rewrite (Hrun r1 w1 eq_refl eq_refl) in E1.
    rewrite (Hrun r2 w2 (eq_sym Hw) (eq_sym Ht)) in E2.
    congruence.
Qed.

Lemma C5_witness :
  fst (form (Sample.at_time Sample.monday Sample.sales_email)
            (Sample.blank Sample.no_files)) = Ok Sample.sales_email_form
  /\ fst (form (Sample.at_time Sample.tuesday Sample.sales_email)
               (Sample.blank Sample.broken_log)) = Ok Sample.sales_email_form
  /\ files (snd (form (Sample.at_time Sample.monday Sample.sales_email)
                      (Sample.blank Sample.no_files))) = Sample.no_files.
Proof.
  assert (H1 : fst (form (Sample.at_time Sample.monday Sample.sales_email)
                         (Sample.blank Sample.no_files))
               = Ok Sample.sales_email_form) by (vm_compute; reflexivity).
  assert (H2 : fst (form (Sample.at_time Sample.tuesday Sample.sales_email)
                         (Sample.blank Sample.broken_log))
               = Ok Sample.sales_email_form) by (vm_compute; reflexivity).
  split; [exact H1|]. split; [exact H2|].
  exact (proj1 (proj2 (C5_build_prompt_pure _ _ _ _ H1 H2))).
Defined.

(** C8: when the template file is absent, loading returns a table without
    rows and raises nothing; the list of categories of that table is empty;
    and the render goes on to the end of the form. *)
Theorem C8_missing_template_file (r : Run) (w : World) :
  templates_csv (files w) = None ->
  load_templates r w = (Ok [], w)
  /\ category_list [] = []
  /\ exists f w', form r w = (Ok f, w').
Proof.
  intros H. split; [|split].
  - rewrite load_templates_run. now rewrite H.
  - reflexivity.
  - apply form_ok. congruence.
Qed.

Lemma C8_witness :
  templates_csv Sample.no_files = None
  /\ load_templates (Sample.at_time Sample.monday Sample.untouched)
                    (Sample.blank Sample.no_files)
     = (Ok [], Sample.blank Sample.no_files).
Proof.
  split; [reflexivity|].
  exact (proj1 (@C8_missing_template_file
                  (Sample.at_time Sample.monday Sample.untouched)
                  (Sample.blank Sample.no_files) eq_refl)).
Defined.

(** C9: in every render, the two download buttons carry the same data, the
    assembled prompt, under the file names optimized_prompt.txt and
    optimized_prompt.md, and there is no other download on the page.  (A
    render that stops at an unreadable template file offers no download.) *)
Theorem C9_exports_identical (r : Run) (fs : Files) :
  let p := page (snd (render r fs)) in
  (templates_csv fs = Some Unparseable /\ downloads p = [])
  \/ (exists f,
        fst (form r {| files := fs; page := [] |}) = Ok f
        /\ optimized f
           = build_prompt (rough f) (target_ai f) (mode f) (answers f)
                          (tokens f) (extras f)
        /\ downloads p = [ (lit "optimized_prompt.txt", optimized f);
                           (lit "optimized_prompt.md", optimized f) ]).
Proof.
  intros p. unfold p, render.
  destruct (templates_csv fs) as [[rows|]|] eqn:Et.
  2: { left. split; [reflexivity|].
       rewrite script_run, form_templates_unparseable by exact Et. reflexivity. }
  all: right;
    destruct (@form_ok r {| files := fs; page := [] |}) as (f & w1 & Hf);
    [cbn [files]; congruence|];
    exists f; rewrite Hf; split; [reflexivity|];
    destruct (form_inv _ _ Hf) as (before & -> & Hb & Ho & _);
    split; [exact Ho|];
    destruct (script_page _ _ Hf) as (extra & -> & Hx);
    cbn [page app]; rewrite !downloads_app, Hx, (downloads_none _ Hb);
    reflexivity.
Qed.

Lemma answer_line_in rough target_ai mode answers tokens extras (kv : str * str) :
  mode = lit "DETAIL" ->
  In kv answers ->
  In (answer_line kv) (prompt_lines rough target_ai mode answers tokens extras).
Proof.
  intros Hm Hin. rewrite prompt_lines_sections.
  assert (Hc : str_eqb mode (lit "DETAIL") && truthy answers = true).
  { apply wants_answers_iff. split; [assumption|]. now destruct answers. }
  rewrite Hc. unfold Doc.preamble, Doc.input_section, Doc.user_answers_section.
  cbn [app Doc.blank_line_separated].
  do 8 right. apply in_or_app. left. now apply (in_map answer_line).
Qed.

(** C10: in DETAIL mode the answers mapping holds, in the order A1, A2, A3,
    exactly the slots whose text does not trim to nothing, each with its
    text as typed: a slot whose text trims to nothing has no entry, and a
    slot that is kept has its untrimmed text both in the mapping passed to
    [build_prompt] and in its "- slot: value" line of the document. *)
Theorem C10_answers_filtered_kept_verbatim (r : Run) (w : World) (f : Form) :
  fst (form r w) = Ok f ->
  mode f = lit "DETAIL" ->
  let slots := [ (lit "A1", text_value (widgets r) (lit "Answer 1") []);
                 (lit "A2", text_value (widgets r) (lit "Answer 2") []);
                 (lit "A3", text_value (widgets r) (lit "Answer 3") []) ] in
  let lines := prompt_lines (rough f) (target_ai f) (mode f) (answers f)
                            (tokens f) (extras f) in
  answers f = filter (fun kv => negb (str_eqb (strip (snd kv)) [])) slots
  /\ (forall k v, In (k, v) slots -> strip v = [] -> ~ In k (keys (answers f)))
  /\ (forall k v, In (k, v) slots -> strip v <> [] ->
        In (k, v) (answers f)
        /\ In (lit "- " ++ k ++ lit ": " ++ v) lines)
  /\ (strip (rough f) <> [] -> optimized f = join nl lines).
Proof.
  intros Hf Hm slots lines.
  destruct (form r w) as [o w'] eqn:E. cbn [fst] in Hf. subst o.
  destruct (form_inv _ _ E) as (before & _ & _ & Ho & Ha).
  rewrite Hm in Ha. rewrite str_eqb_refl in Ha.
  assert (Hfilter : answers f
                    = filter (fun kv => negb (str_eqb (strip (snd kv)) [])) slots)
    by exact Ha.
  split; [exact Hfilter|]. split; [|split].
  - intros k v Hin Hv Hk. unfold keys in Hk.
    apply in_map_iff in Hk as ([k' v'] & Hk' & Hin').
    cbn [fst] in Hk'. subst k'.
    rewrite Hfilter in Hin'. apply filter_In in Hin' as [Hin' Hp].
    cbn [snd] in Hp. apply negb_true_iff, str_eqb_neq in Hp.
    cbn [In slots] in Hin, Hin'.
    destruct Hin as [Hin | [Hin | [Hin | []]]];
      destruct Hin' as [Hin' | [Hin' | [Hin' | []]]];
      injection Hin as Hk1 Hv1; injection Hin' as Hk2 Hv2;
      try congruence;
      rewrite <- Hk2 in Hk1; vm_compute in Hk1; discriminate Hk1.
  - intros k v Hin Hv.
    assert (Hkv : In (k, v) (answers f)).
    { rewrite Hfilter. apply filter_In. split; [assumption|].
      cbn [snd]. now apply negb_true_iff, str_eqb_neq. }
    split; [exact Hkv|].
    exact (answer_line_in (rough f) (target_ai f) (answers f) (tokens f)
                          (extras f) (k, v) Hm Hkv).
  - intros Hr. rewrite Ho. unfold build_prompt.
    apply truthy_true in Hr. now rewrite Hr.
Qed.

Lemma C10_witness :
  fst (form (Sample.at_time Sample.monday Sample.sales_email_answered)
            (Sample.blank Sample.no_files))
  = Ok Sample.sales_email_answered_form
  /\ mode Sample.sales_email_answered_form = lit "DETAIL"
  /\ ~ In (lit "A2") (keys (answers Sample.sales_email_answered_form))
  /\ In (lit "- A1:   Small business owners ")
        (prompt_lines (lit "Write me a sales email") (lit "ChatGPT") (lit "DETAIL")
           [(lit "A1", lit "  Small business owners ")] [] []).
Proof.
  assert (H1 : fst (form (Sample.at_time Sample.monday Sample.sales_email_answered)
                         (Sample.blank Sample.no_files))
               = Ok Sample.sales_email_answered_form) by (vm_compute; reflexivity).
  assert (H2 : mode Sample.sales_email_answered_form = lit "DETAIL") by reflexivity.
  split; [exact H1|]. split; [exact H2|].
  pose proof (C10_answers_filtered_kept_verbatim _ _ H1 H2) as (_ & Hout & Hin & _).
  split.
  - apply (Hout (lit "A2") (lit "   ")); [right; left|]; reflexivity.
  - refine (proj2 (Hin (lit "A1") (lit "  Small business owners ") _ _)).
    + left. reflexivity.
    + vm_compute. discriminate.
Defined.

(** A render over an unreadable log does not go through: the read error
    of line 156 ends the run. *)
Lemma C7_counterexample :
  history_csv Sample.broken_log = Some Unparseable
  /\ fst (render (Sample.at_time Sample.monday Sample.sales_email) Sample.broken_log)
     = Raised ReadCsvError
  /\ ~ completes (render (Sample.at_time Sample.monday Sample.sales_email)
                         Sample.broken_log).
Proof.
  split; [reflexivity|]. split; [vm_compute; reflexivity|].
  intros (f & Hf). vm_compute in Hf. discriminate Hf.
Qed.

(** C7, as amended: when the session log cannot be read, the error
    [pd.read_csv] raises is caught nowhere, so every such render ends with
    an exception; nothing is written.  When the form has been rendered,
    the exception is the read error of the history section, the last
    section of the script: the form, the prompt in its code block and both
    download buttons with the prompt as data are on the page by then, and
    the page is the one the same render produces over a readable or
    absent log, less the final element that shows the log. *)
Theorem C7_unreadable_log_ends_run_after_form (r : Run) (fs : Files) :
  history_csv fs = Some Unparseable ->
  ~ completes (render r fs)
  /\ files (snd (render r fs)) = fs
  /\ forall f,
       fst (form r {| files := fs; page := [] |}) = Ok f ->
       exists before,
         let shown :=
           before ++ right_elements f
           ++ [(Main, Divider); (Main, Subheader (lit "Session History"))] in
         render r fs = (Raised ReadCsvError, {| files := fs; page := shown |})
         /\ optimized f
            = build_prompt (rough f) (target_ai f) (mode f) (answers f)
                           (tokens f) (extras f)
         /\ downloads shown = [ (lit "optimized_prompt.txt", optimized f);
                                (lit "optimized_prompt.md", optimized f) ]
         /\ forall h, h <> Some Unparseable ->
              exists fs' log_element,
                render r {| templates_csv := templates_csv fs; history_csv := h |}
                = (Ok f, {| files := fs'; page := shown ++ [log_element] |}).
Proof.
  intros Hh.
  assert (Hends : ~ completes (render r fs) /\ files (snd (render r fs)) = fs).
  { unfold completes, render. rewrite script_run.
    destruct (log_blind_run r {| files := fs; page := [] |} form_log_blind)
      as (o & els & _ & E).
    rewrite E. cbn [files page app]. destruct o as [f|e].
    - rewrite history_unreadable by exact Hh. cbn [fst snd files].
      split; [intros (f0 & Hf0); discriminate Hf0 | reflexivity].
    - cbn [fst snd files].
      split; [intros (f0 & Hf0); discriminate Hf0 | reflexivity]. }
  split; [apply Hends|]. split; [apply Hends|].
  intros f Hf0.
  destruct (form r {| files := fs; page := [] |}) as [o w1] eqn:Hf.
  cbn [fst] in Hf0. subst o.
  destruct (form_inv _ _ Hf) as (before & -> & Hb & Ho & _).
  cbn [files page app] in Hf.
  exists before. cbv zeta. split; [|split; [|split]].
  - unfold render. rewrite script_run, Hf.
    rewrite history_unreadable by exact Hh. cbn [files page].
    now rewrite <- !app_assoc.
  - exact Ho.
  - rewrite !downloads_app, (downloads_none _ Hb). reflexivity.
  - intros h Hhealthy. unfold render. rewrite script_run.
    destruct (form_log_blind (widgets r) (templates_csv fs))
      as (o & els & _ & Hrun).
    pose proof (Hrun r {| files := fs; page := [] |} eq_refl eq_refl) as E1.
    rewrite Hf in E1. injection E1 as <- <-.
    rewrite (Hrun r {| files := {| templates_csv := templates_csv fs;
                                    history_csv := h |}; page := [] |}
               eq_refl eq_refl).
    cbn [files page app].
    destruct (export_history f && truthy (optimized f)) eqn:Ec.
    + rewrite history_saves by assumption. cbn [files page].
      eexists _, _. rewrite <- !app_assoc. reflexivity.
    + rewrite history_keeps by assumption. cbn [files page].
      eexists _, _. rewrite <- !app_assoc. reflexivity.
Qed.

Lemma C7_witness :
  history_csv Sample.broken_log = Some Unparseable
  /\ fst (form (Sample.at_time Sample.monday Sample.sales_email)
               {| files := Sample.broken_log; page := [] |})
     = Ok Sample.sales_email_form
  /\ exists before,
       render (Sample.at_time Sample.monday Sample.sales_email) Sample.broken_log
       = (Raised ReadCsvError,
          {| files := Sample.broken_log;
             page := before ++ right_elements Sample.sales_email_form
                     ++ [(Main, Divider);
                         (Main, Subheader (lit "Session History"))] |}).
Proof.
  assert (H1 : history_csv Sample.broken_log = Some Unparseable) by reflexivity.
  assert (H2 : fst (form (Sample.at_time Sample.monday Sample.sales_email)
                         {| files := Sample.broken_log; page := [] |})
               = Ok Sample.sales_email_form) by (vm_compute; reflexivity).
  split; [exact H1|]. split; [exact H2|].
  destruct (proj2 (proj2 (@C7_unreadable_log_ends_run_after_form
              (Sample.at_time Sample.monday Sample.sales_email)
              Sample.broken_log H1)) _ H2)
    as (before & Hrender & _).
  exists before. exact Hrender.
Defined.

(** ** The session log over successive renders *)

Lemma last_cons {A} (a d : A) (l : list A) : last (a :: l) d = last l a.
Proof.
  revert a d. induction l as [|b l IH]; intros a d; [reflexivity|].
  change (last (a :: b :: l) d) with (last (b :: l) d).
  now rewrite !IH.
Qed.

Lemma files_after_cons res results fs :
  files_after (res :: results) fs = files_after results (files (snd res)).
Proof. unfold files_after. cbn [map]. apply last_cons. Qed.

Lemma read_back_length (p : Pandas) (rows : list HistoryRow) :
  List.length (read_back p rows) = List.length rows.
Proof. apply length_map. Qed.

Lemma read_back_timestamps (p : Pandas) (rows : list HistoryRow) :
  keeps_timestamps p ->
  map timestamp (read_back p rows) = map timestamp rows.
Proof.
  intros Hk. unfold read_back. rewrite map_map. apply map_ext.
  intros row. apply Hk.
Qed.

Lemma log_after_save_length (r : Run) (f : Form) (fs : Files) :
  List.length (log_after_save r f (file_rows fs)) = S (List.length (log_rows fs)).
Proof.
  unfold log_after_save, file_rows, log_rows, concat_row.
  destruct (history_csv fs) as [[rows|]|]; [|reflexivity..].
  rewrite length_app, read_back_length. simpl. lia.
Qed.

Lemma log_after_save_timestamps (r : Run) (f : Form) (fs : Files) :
  keeps_timestamps (pandas r) ->
  map timestamp (log_after_save r f (file_rows fs))
  = map timestamp (log_rows fs) ++ [utcnow_isoformat r].
Proof.
  intros Hk. unfold log_after_save, file_rows, log_rows, concat_row.
  destruct (history_csv fs) as [[rows|]|]; [|reflexivity..].
  rewrite map_app, read_back_timestamps by assumption. cbn [map].
  now rewrite (proj2 (Hk _ _)).
Qed.

(** What a successful saving render over a readable or absent log leaves
    in the file, and what it shows last. *)
Lemma render_saved (r : Run) (fs : Files) :
  history_csv fs <> Some Unparseable ->
  saved (render r fs) ->
  exists f,
    fst (render r fs) = Ok f
    /\ files (snd (render r fs))
       = {| templates_csv := templates_csv fs;
            history_csv := Some (Table (log_after_save r f (file_rows fs))) |}
    /\ exists before,
         page (snd (render r fs))
         = before ++
           [(Main, Dataframe
                     (tail 20 (read_back (pandas r)
                                 (log_rows (files (snd (render r fs)))))))].
Proof.
  intros Hh (f & Hf & He & Ho). unfold render in *. rewrite script_run in *.
  destruct (form r {| files := fs; page := [] |}) as [[f0|e] w1] eqn:E;
    [|discriminate].
  destruct (form_inv _ _ E) as (before & -> & _).
  cbn [files page app] in *.
  destruct (export_history f0 && truthy (optimized f0)) eqn:Ec.
  - rewrite history_saves in * by assumption.
    cbn [fst snd files page log_rows history_csv] in *.
    injection Hf as ->. exists f. split; [reflexivity|]. split; [reflexivity|].
    exists (before ++ right_elements f
            ++ [(Main, Divider); (Main, Subheader (lit "Session History"))]).
    rewrite <- !app_assoc. reflexivity.
  - rewrite history_keeps in Hf by assumption. cbn [fst] in Hf.
    injection Hf as ->. apply truthy_true in Ho.
    rewrite He, Ho in Ec. discriminate.
Qed.

(** The log over a sequence of successful saving renders. *)
Lemma renders_saved (rs : list Run) (fs : Files) :
  history_csv fs <> Some Unparseable ->
  Forall saved (renders rs fs) ->
  let rows := log_rows (files_after (renders rs fs) fs) in
  List.length rows = (List.length (log_rows fs) + List.length rs)%nat
  /\ (Forall (fun r => keeps_timestamps (pandas r)) rs ->
      map timestamp rows
      = map timestamp (log_rows fs) ++ map utcnow_isoformat rs)
  /\ Forall2 (fun r res =>
                exists before,
                  page (snd res)
                  = before ++
                    [(Main, Dataframe
                              (tail 20 (read_back (pandas r)
                                          (log_rows (files (snd res))))))])
             rs (renders rs fs).
Proof.
  revert fs. induction rs as [|r rs IH]; intros fs Hh Hs.
  - cbn. split; [lia|]. split; [intros _; now rewrite app_nil_r | constructor].
  - cbn [renders] in *. inversion Hs as [|? ? Hs1 Hs2]; subst.
    destruct (@render_saved r fs Hh Hs1) as (f & Hf & Hfiles & Hpage).
    assert (Hh' : history_csv (files (snd (render r fs))) <> Some Unparseable)
      by (rewrite Hfiles; discriminate).
    destruct (IH _ Hh' Hs2) as (Hlen & Hts & Hshow).
    assert (Hrows : log_rows (files (snd (render r fs)))
                    = log_after_save r f (file_rows fs))
      by now rewrite Hfiles.
    rewrite files_after_cons. cbv zeta. split; [|split].
    + rewrite Hlen, Hrows, log_after_save_length. cbn [List.length]. lia.
    + intros Hk. inversion Hk as [|? ? Hk1 Hk2]; subst.
      rewrite (Hts Hk2), Hrows, log_after_save_timestamps by assumption.
      cbn [map]. now rewrite <- app_assoc.
    + constructor; assumption.
Qed.

Lemma tail_length {R} (k : nat) (df : list R) :
  List.length (tail k df) = Nat.min k (List.length df).
Proof. unfold tail. rewrite length_skipn. lia. Qed.

Lemma tail_suffix {R} (k : nat) (df : list R) :
  exists older, df = older ++ tail k df.
Proof.
  exists (firstn (List.length df - k) df). unfold tail.
  symmetry. apply firstn_skipn.
Qed.

(** C6: starting without a log file, after N successful auto-saved renders
    that each produced a non-empty prompt, the log holds exactly N rows.
    Their time stamps are the clock readings of the N renders, in call
    order and with repetitions kept (pandas reading the time stamps as the
    text they are), so no row is moved, merged or dropped; what the other
    cells hold after pandas has read and rewritten them is left open.
    Each render shows last the tail of the log it has just written, as it
    reads it back; and the tail of k rows is the last min(k, N) rows of
    the log, in the order of the log. *)
Theorem C6_log_grows_in_call_order (rs : list Run) (fs : Files) :
  history_csv fs = None ->
  Forall saved (renders rs fs) ->
  let results := renders rs fs in
  let rows := log_rows (files_after results fs) in
  let N := List.length rs in
  List.length rows = N
  /\ (Forall (fun r => keeps_timestamps (pandas r)) rs ->
      map timestamp rows = map utcnow_isoformat rs)
  /\ Forall2 (fun r res =>
                exists before,
                  page (snd res)
                  = before ++
                    [(Main, Dataframe
                              (tail 20 (read_back (pandas r)
                                          (log_rows (files (snd res))))))])
             rs results
  /\ forall k,
       List.length (tail k rows) = Nat.min k N
       /\ exists older, rows = older ++ tail k rows
                        /\ List.length older = (N - Nat.min k N)%nat.
Proof.
  intros Hnone Hs results rows N.
  assert (Hh : history_csv fs <> Some Unparseable) by congruence.
  destruct (@renders_saved rs fs Hh Hs) as (Hlen & Hts & Hshow).
  assert (Hempty : log_rows fs = []) by (unfold log_rows; now rewrite Hnone).
  rewrite Hempty in Hlen, Hts. cbn [List.length Nat.add app] in Hlen, Hts.
  assert (HN : List.length rows = N) by exact Hlen.
  split; [exact HN|]. split; [exact Hts|]. split; [exact Hshow|].
  intros k. rewrite tail_length, HN. split; [reflexivity|].
  destruct (tail_suffix k rows) as (older & Ho).
  exists older. split; [exact Ho|].
  apply (f_equal (@List.length _)) in Ho.
  rewrite length_app, tail_length, HN in Ho. lia.
Qed.

Lemma C6_witness :
  history_csv Sample.no_files = None
  /\ Forall saved
       (renders [Sample.at_time Sample.monday Sample.sales_email;
                 Sample.at_time Sample.monday Sample.sales_email;
                 Sample.under Sample.numeric_tokens
                   (Sample.at_time Sample.tuesday Sample.sales_email_answered)]
                Sample.no_files)
  /\ List.length
       (log_rows
          (files_after
             (renders [Sample.at_time Sample.monday Sample.sales_email;
                       Sample.at_time Sample.monday Sample.sales_email;
                       Sample.under Sample.numeric_tokens
                         (Sample.at_time Sample.tuesday Sample.sales_email_answered)]
                      Sample.no_files)
             Sample.no_files)) = 3%nat
  /\ map timestamp
       (log_rows
          (files_after
             (renders [Sample.at_time Sample.monday Sample.sales_email;
                       Sample.at_time Sample.monday Sample.sales_email;
                       Sample.under Sample.numeric_tokens
                         (Sample.at_time Sample.tuesday Sample.sales_email_answered)]
                      Sample.no_files)
             Sample.no_files))
     = [Sample.monday; Sample.monday; Sample.tuesday].
Proof.
  assert (H1 : history_csv Sample.no_files = None) by reflexivity.
  assert (H2 : Forall saved
       (renders [Sample.at_time Sample.monday Sample.sales_email;
                 Sample.at_time Sample.monday Sample.sales_email;
                 Sample.under Sample.numeric_tokens
                   (Sample.at_time Sample.tuesday Sample.sales_email_answered)]
                Sample.no_files)).
  { cbn [renders].
    repeat constructor;
      (eexists; split; [vm_compute; reflexivity|];
       split; [reflexivity | vm_compute; discriminate]). }
  split; [exact H1|]. split; [exact H2|].
  destruct (@C6_log_grows_in_call_order _ Sample.no_files H1 H2)
    as (Hlen & Hts & _).
  split; [exact Hlen|]. apply Hts.
  repeat constructor.
Defined.

(** * Further properties of the script *)

(** ** The assembler on blank and padded input *)

Lemma lstrip_fixed (s : str) :
  match s with c :: _ => isspace c = false | [] => True end -> lstrip s = s.
Proof. destruct s as [|c s]; [reflexivity|]. simpl. now intros ->. Qed.

Lemma lstrip_idempotent (s : str) : lstrip (lstrip s) = lstrip s.
Proof.
  apply lstrip_fixed. destruct (lstrip s) as [|c t] eqn:E; [exact I|].
  exact (lstrip_head _ E).
Qed.

Lemma rstrip_idempotent (s : str) : rstrip (rstrip s) = rstrip s.
Proof.
  unfold rstrip. now rewrite rev_involutive, lstrip_idempotent.
Qed.

(** Trimming on the right keeps a first character that is not whitespace. *)
Lemma rstrip_keeps_head (c : char) (t : str) :
  isspace c = false -> exists t', rstrip (c :: t) = c :: t'.
Proof.
  intros Hc. destruct (rstrip_suffix (c :: t)) as (post & Hs & Hp).
  destruct (rstrip (c :: t)) as [|d t'] eqn:E.
  - cbn [app] in Hs. subst post. cbn [forallb] in Hp. rewrite Hc in Hp.
    discriminate.
  - cbn [app] in Hs. injection Hs as <- _. now exists t'.
Qed.

Lemma strip_idempotent (s : str) : strip (strip s) = strip s.
Proof.
  unfold strip. destruct (lstrip s) as [|c t] eqn:E; [reflexivity|].
  destruct (@rstrip_keeps_head c t (lstrip_head _ E)) as (t' & Ht).
  rewrite Ht at 1.
  rewrite (@lstrip_fixed (c :: t')) by exact (lstrip_head _ E).
  rewrite <- Ht. apply rstrip_idempotent.
Qed.

Lemma build_prompt_blank rough target_ai mode answers tokens extras :
  forallb isspace rough = true ->
  build_prompt rough target_ai mode answers tokens extras = [].
Proof.
  intros H. apply strip_nil_iff in H. unfold build_prompt. now rewrite H.
Qed.

Lemma build_prompt_nonblank rough target_ai mode answers tokens extras :
  build_prompt rough target_ai mode answers tokens extras = [] ->
  forallb isspace rough = true.
Proof.
  rewrite <- strip_nil_iff. unfold build_prompt.
  destruct (strip rough) as [|c t] eqn:E; cbn [truthy negb]; [reflexivity|].
  rewrite prompt_lines_sections.
  destruct (str_eqb mode (lit "DETAIL") && truthy answers); cbn; discriminate.
Qed.

(** X1: the assembler returns the empty string only for a blank rough idea:
    with C1's direction, the result is empty exactly when the rough idea
    trims to nothing. *)
Theorem build_prompt_empty_iff_blank
    (rough target_ai mode : str) (answers : dict str) (tokens extras : str) :
  build_prompt rough target_ai mode answers tokens extras = []
  <-> forallb isspace rough = true.
Proof.
  split; [apply build_prompt_nonblank | apply build_prompt_blank].
Qed.

(** X2: whitespace around the rough idea, the length limit and the extra
    instructions has no effect on the document: trimming the three before
    the call gives the same text. *)
Theorem build_prompt_ignores_padding
    (rough target_ai mode : str) (answers : dict str) (tokens extras : str) :
  build_prompt (strip rough) target_ai mode answers (strip tokens) (strip extras)
  = build_prompt rough target_ai mode answers tokens extras.
Proof.
  unfold build_prompt, prompt_lines. now rewrite !strip_idempotent.
Qed.

(** ** The template picker *)

(** Every entry of the label map comes from one of its rows. *)
Lemma label_map_entries (rows : list Template) (acc : dict Z) (kv : str * Z) :
  In kv (fold_left (fun d r => dict_set (template_label r) (ID r) d) rows acc) ->
  In kv acc \/ exists r, In r rows /\ template_label r = fst kv /\ ID r = snd kv.
Proof.
  revert acc. induction rows as [|r rows IH]; intros acc; simpl; [now left|].
  intros H. destruct (IH _ H) as [H' | (r' & Hin & Hl & Hid)].
  - apply dict_set_in in H'. destruct H' as [-> | H']; [|now left].
    right. exists r. repeat split. now left.
  - right. exists r'. repeat split; try assumption. now right.
Qed.

Lemma template_subset_incl (df : list Template) (c : str) (t : Template) :
  In t (template_subset df c) ->
  In t df /\ (c <> lit "All" -> Category t = c).
Proof.
  unfold template_subset. destruct (str_eqb c (lit "All")) eqn:E.
  - apply str_eqb_eq in E. intros H. split; [assumption | congruence].
  - intros H. apply filter_In in H as [H Hc]. apply str_eqb_eq in Hc.
    split; [assumption | now intros _].
Qed.

(** What [pick_template] returns, in terms of the two choices. *)
Lemma pick_template_outcome (df : list Template) (r : Run) (w : World) :
  df <> [] ->
  fst (pick_template df r w)
  = (if negb (str_eqb (template_choice (widgets r) df) (lit "(none)")) then
       match dict_get (template_choice (widgets r) df)
               (label_map_of
                  (template_subset df (category_choice (widgets r) df))) with
       | None => Raised KeyError
       | Some id =>
           match find (fun x => Z.eqb (ID x) id) df with
           | None => Raised IndexError
           | Some t => Ok (Some t)
           end
       end
     else Ok None).
Proof.
  intros Hdf. unfold pick_template.
  apply truthy_true in Hdf. rewrite Hdf. cbn [negb].
  unfold bind, selectbox. cbv beta iota zeta.
  fold (category_choice (widgets r) df).
  fold (template_subset df (category_choice (widgets r) df)).
  fold (label_map_of (template_subset df (category_choice (widgets r) df))).
  fold (template_choice (widgets r) df).
  destruct (negb (str_eqb (template_choice (widgets r) df) (lit "(none)")));
    [|reflexivity].
  destruct (dict_get _ _) as [id|]; [|reflexivity].
  now destruct (find _ df).
Qed.

Lemma pick_template_spec (df : list Template) (r : Run) (w : World) :
  exists sel w',
    pick_template df r w = (Ok sel, w')
    /\ forall t, sel = Some t ->
         In t df
         /\ exists t0,
              In t0 (template_subset df (category_choice (widgets r) df))
              /\ template_label t0 = template_choice (widgets r) df
              /\ ID t0 = ID t.
Proof.
  destruct (pick_template_ok df r w) as (sel & w' & E).
  exists sel, w'. split; [exact E|]. intros t ->.
  destruct df as [|t1 df']; [discriminate E|].
  set (df := t1 :: df') in *.
  pose proof (@pick_template_outcome df r w ltac:(discriminate)) as Ho.
  rewrite E in Ho. cbn [fst] in Ho.
  destruct (negb (str_eqb (template_choice (widgets r) df) (lit "(none)")));
    [|discriminate].
  destruct (dict_get _ _) as [id|] eqn:Eg; [|discriminate].
  destruct (find _ df) as [t'|] eqn:Ef; [|discriminate].
  injection Ho as <-. apply find_some in Ef as [Hin Hid].
  apply Z.eqb_eq in Hid. split; [exact Hin|].
  assert (Hkv : In (template_choice (widgets r) df, id)
                   (label_map_of
                      (template_subset df (category_choice (widgets r) df)))).
  { clear -Eg. revert Eg. generalize (template_choice (widgets r) df) as k.
    generalize (label_map_of
                  (template_subset df (category_choice (widgets r) df))) as d.
    induction d as [|[k' v'] d IH]; intros k; simpl; [discriminate|].
    destruct (str_eqb k k') eqn:Ek.
    - apply str_eqb_eq in Ek. intros H. injection H as ->. subst. now left.
    - intros H. right. now apply IH. }
  apply label_map_entries in Hkv as [[] | (t0 & Hin0 & Hl & Hid0)].
  exists t0. cbn [fst snd] in *. repeat split; congruence.
Qed.

Lemma same_id_same_row (df : list Template) (a b : Template) :
  NoDup (map ID df) -> In a df -> In b df -> ID a = ID b -> a = b.
Proof.
  induction df as [|x df IH]; simpl; [contradiction|].
  intros Hnd Ha Hb Hid. inversion Hnd as [|? ? Hx Hnd']; subst.
  destruct Ha as [-> | Ha]; destruct Hb as [-> | Hb]; try reflexivity.
  - exfalso. apply Hx. rewrite Hid. now apply in_map.
  - exfalso. apply Hx. rewrite <- Hid. now apply in_map.
  - now apply IH.
Qed.

(** X4: when the ids of the table are pairwise distinct, the template selected
    is the one the user picked: it carries the chosen label and, under a
    category other than "All", the chosen category. *)
Theorem picked_template_matches_choice
    (df : list Template) (r : Run) (w : World) (t : Template) :
  NoDup (map ID df) ->
  fst (pick_template df r w) = Ok (Some t) ->
  template_label t = template_choice (widgets r) df
  /\ In t df
  /\ (category_choice (widgets r) df <> lit "All" ->
      Category t = category_choice (widgets r) df).
Proof.
  intros Hnd Hsel.
  destruct (pick_template_spec df r w) as (sel & w' & E & Hspec).
  rewrite E in Hsel. cbn [fst] in Hsel. injection Hsel as ->.
  destruct (Hspec t eq_refl) as (Hin & t0 & Hin0 & Hl & Hid).
  apply template_subset_incl in Hin0 as [Hin0 Hcat].
  assert (t0 = t) by (now apply (same_id_same_row df)). subst t0.
  repeat split; assumption.
Qed.

Lemma picked_template_matches_choice_witness :
  NoDup (map ID Sample.store)
  /\ fst (pick_template Sample.store
            (Sample.at_time Sample.monday
               (Sample.choosing (lit "Pick a template") 2 Sample.untouched))
            (Sample.blank Sample.with_store))
     = Ok (Some Sample.blog_template)
  /\ template_label Sample.blog_template
     = template_choice (Sample.choosing (lit "Pick a template") 2 Sample.untouched)
                       Sample.store.
Proof.
  assert (H1 : NoDup (map ID Sample.store)).
  { repeat constructor; simpl; intuition discriminate. }
  assert (H2 : fst (pick_template Sample.store
            (Sample.at_time Sample.monday
               (Sample.choosing (lit "Pick a template") 2 Sample.untouched))
            (Sample.blank Sample.with_store))
     = Ok (Some Sample.blog_template)) by (vm_compute; reflexivity).
  split; [exact H1|]. split; [exact H2|].
  exact (proj1 (@picked_template_matches_choice _ _ _ _ H1 H2)).
Defined.

Lemma untouched_picker_none (df : list Template) (r : Run) (w : World) :
  selected (widgets r) (lit "Pick a template") = None ->
  fst (pick_template df r w) = Ok None.
Proof.
  intros H. destruct df as [|t df']; [reflexivity|].
  rewrite pick_template_outcome by discriminate.
  unfold template_choice, choice. now rewrite H.
Qed.

(** ** The label map *)

Lemma dict_get_set_same {V} (k : str) (v : V) (d : dict V) :
  dict_get k (dict_set k v d) = Some v.
Proof.
  induction d as [|[k' v'] d IH]; simpl.
  - now rewrite str_eqb_refl.
  - destruct (str_eqb k k') eqn:E; simpl.
    + now rewrite str_eqb_refl.
    + now rewrite E.
Qed.

Lemma dict_get_set_other {V} (k k' : str) (v : V) (d : dict V) :
  k' <> k -> dict_get k' (dict_set k v d) = dict_get k' d.
Proof.
  intros Hne. induction d as [|[k0 v0] d IH]; simpl.
  - apply str_eqb_neq in Hne. now rewrite Hne.
  - destruct (str_eqb k k0) eqn:E; simpl.
    + apply str_eqb_eq in E. subst k0. apply str_eqb_neq in Hne.
      now rewrite Hne.
    + now rewrite IH.
Qed.

Lemma dict_set_keys_in {V} (k k' : str) (v : V) (d : dict V) :
  In k' (keys (dict_set k v d)) <-> k' = k \/ In k' (keys d).
Proof.
  induction d as [|[k0 v0] d IH]; simpl; [intuition|].
  destruct (str_eqb k k0) eqn:E; simpl.
  - apply str_eqb_eq in E. subst k0. intuition.
  - unfold keys in IH. rewrite IH. intuition.
Qed.

Lemma dict_set_NoDup {V} (k : str) (v : V) (d : dict V) :
  NoDup (keys (dict_set k v d)) <-> NoDup (keys d).
Proof.
  induction d as [|[k0 v0] d IH]; simpl.
  - split; constructor; [tauto | constructor].
  - destruct (str_eqb k k0) eqn:E; simpl.
    + apply str_eqb_eq in E. now subst k0.
    + apply str_eqb_neq in E.
      split; intros H; inversion H as [|? ? Hk Hnd]; subst; constructor.
      * intros Hin. apply Hk. apply (dict_set_keys_in k k0 v d). now right.
      * now apply IH.
      * intros Hin. apply (dict_set_keys_in k k0 v d) in Hin.
        destruct Hin; [congruence | contradiction].
      * now apply IH.
Qed.

Lemma label_map_fold_NoDup (rows : list Template) (acc : dict Z) :
  NoDup (keys acc) ->
  NoDup (keys (fold_left (fun d r => dict_set (template_label r) (ID r) d) rows acc)).
Proof.
  revert acc. induction rows as [|r rows IH]; intros acc H; simpl; [assumption|].
  apply IH. now apply dict_set_NoDup.
Qed.

Lemma label_map_fold_keys (rows : list Template) (acc : dict Z) (k : str) :
  In k (keys (fold_left (fun d r => dict_set (template_label r) (ID r) d) rows acc))
  <-> In k (keys acc) \/ exists t, In t rows /\ template_label t = k.
Proof.
  revert acc. induction rows as [|r rows IH]; intros acc; simpl.
  - split; [now left | intros [H | (t & [] & _)]; assumption].
  - rewrite IH, dict_set_keys_in. split.
    + intros [[-> | H] | (t & Hin & Hl)].
      * right. exists r. split; [now left | reflexivity].
      * now left.
      * right. exists t. split; [now right | assumption].
    + intros [H | (t & [-> | Hin] & Hl)].
      * left. now right.
      * left. left. now symmetry.
      * right. now exists t.
Qed.

Lemma label_map_fold_keeps (rows : list Template) (acc : dict Z) (k : str) :
  (forall u, In u rows -> template_label u <> k) ->
  dict_get k (fold_left (fun d r => dict_set (template_label r) (ID r) d) rows acc)
  = dict_get k acc.
Proof.
  revert acc. induction rows as [|r rows IH]; intros acc H; simpl; [reflexivity|].
  rewrite IH by (intros u Hu; apply H; now right).
  apply dict_get_set_other. intros E. apply (H r); [now left | now symmetry].
Qed.

(** X7: the entries of the template picker: one per distinct label of the rows
    offered, even when several rows share a label; and a label stands for
    the id of the last row that carries it. *)
Theorem label_map_one_entry_per_label (subset : list Template) :
  NoDup (keys (label_map_of subset))
  /\ (forall k, In k (keys (label_map_of subset))
                <-> exists t, In t subset /\ template_label t = k)
  /\ (forall before t after,
        subset = before ++ t :: after ->
        (forall u, In u after -> template_label u <> template_label t) ->
        dict_get (template_label t) (label_map_of subset) = Some (ID t)).
Proof.
  unfold label_map_of. split; [|split].
  - apply label_map_fold_NoDup. constructor.
  - intros k. rewrite label_map_fold_keys. simpl. tauto.
  - intros before t after -> Hafter.
    rewrite fold_left_app. cbn [fold_left].
    rewrite label_map_fold_keeps by assumption.
    apply dict_get_set_same.
Qed.

(** ** The values a render binds *)

Lemma pick_template_fst (df : list Template) (r : Run) (w w' : World) :
  fst (pick_template df r w) = fst (pick_template df r w').
Proof.
  destruct df as [|t df]; [reflexivity|].
  now rewrite !pick_template_outcome by discriminate.
Qed.

Lemma sidebar_values df r w ta md sel eh w' :
  sidebar df r w = (Ok (ta, md, sel, eh), w') ->
  ta = choice (widgets r) (lit "Target AI")
         [lit "ChatGPT"; lit "Claude"; lit "Gemini"; lit "Other"] 0
  /\ md = choice (widgets r) (lit "Prompt Style") [lit "DETAIL"; lit "BASIC"] 0
  /\ fst (pick_template df r w) = Ok sel
  /\ eh = match checked (widgets r) (lit "Auto-save session history (CSV)") with
          | Some b => b
          | None => true
          end.
Proof.
  unfold sidebar. intros H.
  apply bind_ok_inv in H as (? & w1 & _ & H).
  apply bind_ok_inv in H as (? & w2 & _ & H).
  apply bind_ok_inv in H as (ta' & w3 & H3 & H).
  apply bind_ok_inv in H as (md' & w4 & H4 & H).
  apply bind_ok_inv in H as (? & w5 & _ & H).
  apply bind_ok_inv in H as (? & w6 & _ & H).
  apply bind_ok_inv in H as (sel' & w7 & H7 & H).
  apply bind_ok_inv in H as (? & w8 & _ & H).
  apply bind_ok_inv in H as (eh' & w9 & H9 & H).
  unfold ret in H. injection H as <- <- <- <- _.
  unfold selectbox in H3, H4. injection H3 as <- _. injection H4 as <- _.
  unfold checkbox in H9. injection H9 as <- _.
  repeat split. rewrite (pick_template_fst df r w w6). now rewrite H7.
Qed.

(** The names a render binds, from the widget state and the template file. *)
Lemma form_values r w f :
  fst (form r w) = Ok f ->
  exists sel,
    fst (pick_template (loaded_templates (files w)) r w) = Ok sel
    /\ target_ai f = choice (widgets r) (lit "Target AI")
                       [lit "ChatGPT"; lit "Claude"; lit "Gemini"; lit "Other"] 0
    /\ mode f = choice (widgets r) (lit "Prompt Style") [lit "DETAIL"; lit "BASIC"] 0
    /\ export_history f
       = match checked (widgets r) (lit "Auto-save session history (CSV)") with
         | Some b => b
         | None => true
         end
    /\ rough f = text_value (widgets r) (lit "Type anything (the messier the better):")
                   (match sel with Some t => Rough_Idea t | None => [] end)
    /\ tokens f = text_value (widgets r) (lit "Max length / tokens (optional)") []
    /\ extras f = text_value (widgets r)
                    (lit "Special instructions (style guides, constraints)") [].
Proof.
  destruct (form r w) as [o w'] eqn:H. cbn [fst]. intros ->.
  unfold form in H.
  apply bind_ok_inv in H as (? & w1 & H1 & H).
  apply bind_ok_inv in H as (df & w2 & H2 & H).
  apply bind_ok_inv in H as ([[[ta md] sel] eh] & w3 & H3 & H).
  apply bind_ok_inv in H as (? & w4 & _ & H).
  apply bind_ok_inv in H as (? & w5 & _ & H).
  apply bind_ok_inv in H as ([[[ro an] tk] ex] & w6 & H6 & H).
  apply bind_ok_inv in H as (op & w7 & _ & H).
  unfold ret in H. injection H as <- _.
  unfold emit in H1. injection H1 as _ <-.
  rewrite load_templates_run in H2. cbn [files] in H2.
  assert (Hdf : df = loaded_templates (files w) /\ w2 = {| files := files w;
            page := page w ++
              [(Main, PageConfig (lit "Lyra Prompt App") [10024%N] (lit "wide"))] |}).
  { unfold loaded_templates.
    destruct (templates_csv (files w)) as [[rows|]|];
      inversion H2; subst; now split. }
  destruct Hdf as [-> ->].
  destruct (sidebar_values _ _ _ H3) as (Hta & Hmd & Hsel & Heh).
  destruct (left_column_values _ _ _ _ H6) as (Hro & _ & Htk & Hex).
  exists sel. cbn [target_ai mode export_history rough tokens extras].
  repeat split; try assumption.
  rewrite <- Hsel. apply pick_template_fst.
Qed.

(** X8: whatever the widget state, the target assistant bound by a render is
    one of the four options and the mode is "DETAIL" or "BASIC"; with the
    check box untouched, auto-save is on. *)
Theorem selections_within_options (r : Run) (w : World) (f : Form) :
  fst (form r w) = Ok f ->
  In (target_ai f) [lit "ChatGPT"; lit "Claude"; lit "Gemini"; lit "Other"]
  /\ (mode f = lit "DETAIL" \/ mode f = lit "BASIC")
  /\ (checked (widgets r) (lit "Auto-save session history (CSV)") = None ->
      export_history f = true).
Proof.
  intros H. destruct (form_values _ _ H) as (sel & _ & -> & -> & -> & _).
  split; [|split].
  - apply choice_in. simpl. lia.
  - assert (Hin : In (choice (widgets r) (lit "Prompt Style")
                        [lit "DETAIL"; lit "BASIC"] 0)
                     [lit "DETAIL"; lit "BASIC"]) by (apply choice_in; simpl; lia).
    destruct Hin as [<- | [<- | []]]; tauto.
  - now intros ->.
Qed.

Lemma selections_within_options_witness :
  fst (form (Sample.at_time Sample.monday
               (Sample.choosing (lit "Prompt Style") 7 Sample.sales_email))
            (Sample.blank Sample.no_files)) = Ok Sample.sales_email_form
  /\ (mode Sample.sales_email_form = lit "DETAIL"
      \/ mode Sample.sales_email_form = lit "BASIC").
Proof.
  assert (H : fst (form (Sample.at_time Sample.monday
               (Sample.choosing (lit "Prompt Style") 7 Sample.sales_email))
            (Sample.blank Sample.no_files)) = Ok Sample.sales_email_form)
    by (vm_compute; reflexivity).
  split; [exact H|].
  exact (proj1 (proj2 (selections_within_options _ _ H))).
Defined.

Lemma filter_keys_NoDup {V} (p : str * V -> bool) (d : dict V) :
  NoDup (keys d) -> NoDup (keys (filter p d)).
Proof.
  unfold keys. induction d as [|kv d IH]; simpl; [trivial|].
  intros H. inversion H as [|? ? Hk Hnd]; subst.
  destruct (p kv); simpl; [|now apply IH].
  constructor; [|now apply IH].
  intros Hin. apply Hk. apply in_map_iff in Hin as (kv' & Hf & Hin).
  apply filter_In in Hin as [Hin _]. apply in_map_iff. now exists kv'.
Qed.

(** X9: the answers mapping of every render: its keys are among A1, A2, A3,
    without repetition; no value trims to nothing; and outside DETAIL mode
    it is empty, whatever was typed into the answer fields before. *)
Theorem answers_mapping_invariant (r : Run) (w : World) (f : Form) :
  fst (form r w) = Ok f ->
  NoDup (keys (answers f))
  /\ (forall k v, In (k, v) (answers f) ->
        In k [lit "A1"; lit "A2"; lit "A3"] /\ strip v <> [])
  /\ (List.length (answers f) <= 3)%nat
  /\ (mode f <> lit "DETAIL" -> answers f = []).
Proof.
  intros H. destruct (form r w) as [o w'] eqn:E. cbn [fst] in H. subst o.
  destruct (form_inv _ _ E) as (_ & _ & _ & _ & Ha).
  destruct (str_eqb (mode f) (lit "DETAIL")) eqn:Em.
  - apply str_eqb_eq in Em. rewrite Ha. unfold collect_answers.
    split; [|split; [|split]].
    + apply filter_keys_NoDup. cbn [keys map fst].
      repeat constructor; cbn [In]; intros Hin;
        repeat (destruct Hin as [Hin | Hin]; [vm_compute in Hin; discriminate Hin|]);
        exact Hin.
    + intros k v Hin. apply filter_In in Hin as [Hin Hp]. cbn [snd] in Hp.
      apply negb_true_iff, str_eqb_neq in Hp. split; [|exact Hp].
      cbn [In] in *. destruct Hin as [Hin | [Hin | [Hin | []]]];
        injection Hin as <- _; tauto.
    + match goal with
      | |- (List.length (filter ?p ?l) <= 3)%nat =>
          pose proof (filter_length_le p l) as Hle
      end.
      exact Hle.
    + congruence.
  - rewrite Ha. split; [constructor|]. split; [intros k v []|].
    split; [simpl; lia | reflexivity].
Qed.

Lemma answers_mapping_invariant_witness :
  fst (form (Sample.at_time Sample.monday
               (Sample.choosing (lit "Prompt Style") 1 Sample.sales_email_answered))
            (Sample.blank Sample.no_files))
  = Ok {| target_ai := lit "ChatGPT"; mode := lit "BASIC"; export_history := true;
          rough := lit "Write me a sales email"; answers := [];
          tokens := []; extras := [];
          optimized := build_prompt (lit "Write me a sales email") (lit "ChatGPT")
                         (lit "BASIC") [] [] [] |}
  /\ NoDup (@keys str []).
Proof.
  assert (H : fst (form (Sample.at_time Sample.monday
               (Sample.choosing (lit "Prompt Style") 1 Sample.sales_email_answered))
            (Sample.blank Sample.no_files))
  = Ok {| target_ai := lit "ChatGPT"; mode := lit "BASIC"; export_history := true;
          rough := lit "Write me a sales email"; answers := [];
          tokens := []; extras := [];
          optimized := build_prompt (lit "Write me a sales email") (lit "ChatGPT")
                         (lit "BASIC") [] [] [] |}) by (vm_compute; reflexivity).
  split; [exact H|].
  exact (proj1 (answers_mapping_invariant _ _ H)).
Defined.

Lemma blank_rough_empty_prompt (f : Form) :
  optimized f
  = build_prompt (rough f) (target_ai f) (mode f) (answers f) (tokens f) (extras f) ->
  truthy (optimized f) = negb (forallb isspace (rough f)).
Proof.
  intros Ho. destruct (forallb isspace (rough f)) eqn:Eb.
  - rewrite Ho, build_prompt_blank by exact Eb. reflexivity.
  - cbn [negb]. apply truthy_true. rewrite Ho. intros Hn.
    apply build_prompt_nonblank in Hn. congruence.
Qed.

(** X11: what the right column puts on the page: the code block shows the
    prompt, or the placeholder when the rough idea is blank; both download
    buttons carry the prompt and are disabled exactly when the rough idea
    is blank; the clipboard button is always disabled. *)
Theorem export_disabled_iff_blank (r : Run) (w : World) (f : Form) :
  fst (form r w) = Ok f ->
  let blank := forallb isspace (rough f) in
  exists before,
    page (snd (form r w))
    = page w ++ before ++
      [ (Right, Subheader (lit "Your Optimized Prompt"));
        (Right, Caption (lit "Copy this into your chosen AI (or paste into the chat you already have open)."));
        (Right, Code (if blank
                      then 8592%N :: lit " Start by typing a rough prompt on the left."
                      else optimized f) (lit "markdown"));
        (Right, Columns 3);
        (C1, DownloadButton (lit "Download .txt") (optimized f)
               (lit "optimized_prompt.txt") blank);
        (C2, Button (lit "Copy to Clipboard") true
               (lit "Use Download or manual copy. (Clipboard component can be added later.)"));
        (C3, DownloadButton (lit "Download .md") (optimized f)
               (lit "optimized_prompt.md") blank) ]
    /\ (blank = true <-> optimized f = []).
Proof.
  intros H blank. destruct (form r w) as [o w'] eqn:E. cbn [fst] in H. subst o.
  destruct (form_inv _ _ E) as (before & -> & _ & Ho & _).
  pose proof (blank_rough_empty_prompt f Ho) as Ht. fold blank in Ht.
  exists before. cbn [snd page]. unfold right_elements, shown_prompt.
  rewrite Ht. rewrite negb_involutive. split.
  - now destruct blank.
  - split; intros Hb.
    + apply truthy_false. rewrite Ht, Hb. reflexivity.
    + apply truthy_false in Hb. rewrite Ht in Hb. now destruct blank.
Qed.

Lemma export_disabled_iff_blank_witness :
  fst (form (Sample.at_time Sample.monday Sample.untouched)
            (Sample.blank Sample.no_files))
  = Ok {| target_ai := lit "ChatGPT"; mode := lit "DETAIL"; export_history := true;
          rough := []; answers := []; tokens := []; extras := []; optimized := [] |}
  /\ exists before,
       page (snd (form (Sample.at_time Sample.monday Sample.untouched)
                       (Sample.blank Sample.no_files)))
       = before ++
         [ (Right, Subheader (lit "Your Optimized Prompt"));
           (Right, Caption (lit "Copy this into your chosen AI (or paste into the chat you already have open)."));
           (Right, Code (8592%N :: lit " Start by typing a rough prompt on the left.")
                        (lit "markdown"));
           (Right, Columns 3);
           (C1, DownloadButton (lit "Download .txt") [] (lit "optimized_prompt.txt") true);
           (C2, Button (lit "Copy to Clipboard") true
                  (lit "Use Download or manual copy. (Clipboard component can be added later.)"));
           (C3, DownloadButton (lit "Download .md") [] (lit "optimized_prompt.md") true) ].
Proof.
  assert (H : fst (form (Sample.at_time Sample.monday Sample.untouched)
            (Sample.blank Sample.no_files))
  = Ok {| target_ai := lit "ChatGPT"; mode := lit "DETAIL"; export_history := true;
          rough := []; answers := []; tokens := []; extras := []; optimized := [] |})
    by (vm_compute; reflexivity).
  split; [exact H|].
  destruct (export_disabled_iff_blank _ _ H) as (before & Hp & _).
  exists before. exact Hp.
Defined.

(** ** Renders and the files *)

(** X12: an unreadable template file stops the render at line 14, before any
    widget: the page holds the page configuration only, no prompt is
    assembled and no file is written. *)
Theorem unreadable_templates_stop_render (r : Run) (fs : Files) :
  templates_csv fs = Some Unparseable ->
  render r fs
  = (Raised ReadCsvError,
     {| files := fs;
        page := [(Main, PageConfig (lit "Lyra Prompt App") [10024%N] (lit "wide"))] |}).
Proof.
  intros H. unfold render. rewrite script_run.
  now rewrite form_templates_unparseable.
Qed.

Lemma unreadable_templates_stop_render_witness :
  templates_csv Sample.broken_templates = Some Unparseable
  /\ fst (render (Sample.at_time Sample.monday Sample.sales_email)
                 Sample.broken_templates) = Raised ReadCsvError.
Proof.
  split; [reflexivity|].
  rewrite (@unreadable_templates_stop_render
             (Sample.at_time Sample.monday Sample.sales_email)
             Sample.broken_templates eq_refl).
  reflexivity.
Defined.

(** No render ever changes the template file. *)
Lemma render_keeps_templates (r : Run) (fs : Files) :
  templates_csv (files (snd (render r fs))) = templates_csv fs.
Proof.
  unfold render. rewrite script_run.
  destruct (log_blind_run r {| files := fs; page := [] |} form_log_blind)
    as (o & els & _ & E).
  rewrite E. cbn [files page app]. destruct o as [f|e]; [|reflexivity].
  destruct (history_csv fs) as [[rows|]|] eqn:Eh.
  1, 3: assert (Hh : history_csv
                       (files {| files := fs; page := els |}) <> Some Unparseable)
      by (cbn [files]; congruence);
    destruct (export_history f && truthy (optimized f)) eqn:Ec;
    [ rewrite (history_saves _ r _ Hh Ec) | rewrite (history_keeps _ r _ Hh Ec) ];
    reflexivity.
  now rewrite history_unreadable.
Qed.

(** X13: with auto-save off, or with a blank rough idea, a render over a
    readable or absent log writes nothing: the files are as before, and
    the page ends with the last rows of the existing log as pandas reads
    them, or with the note that nothing is saved yet. *)
Theorem render_without_save_keeps_files (r : Run) (fs : Files) (f : Form) :
  history_csv fs <> Some Unparseable ->
  fst (form r {| files := fs; page := [] |}) = Ok f ->
  export_history f = false \/ forallb isspace (rough f) = true ->
  exists before,
    render r fs
    = (Ok f, {| files := fs;
                page := before ++ [(Main, log_display (pandas r) fs)] |}).
Proof.
  intros Hh Hf Hno.
  destruct (form r {| files := fs; page := [] |}) as [o w1] eqn:E.
  cbn [fst] in Hf. subst o.
  destruct (form_inv _ _ E) as (before & -> & _ & Ho & _).
  assert (Ec : export_history f && truthy (optimized f) = false).
  { rewrite (blank_rough_empty_prompt f Ho).
    destruct Hno as [-> | ->]; [reflexivity | apply andb_false_r]. }
  unfold render. rewrite script_run, E.
  rewrite history_keeps by assumption. cbn [files page app].
  exists (before ++ right_elements f
          ++ [(Main, Divider); (Main, Subheader (lit "Session History"))]).
  now rewrite <- !app_assoc.
Qed.

Lemma render_without_save_keeps_files_witness :
  history_csv Sample.no_files <> Some Unparseable
  /\ fst (form (Sample.at_time Sample.monday
                  (Sample.ticking (lit "Auto-save session history (CSV)") false
                     Sample.sales_email))
               (Sample.blank Sample.no_files))
     = Ok {| target_ai := lit "ChatGPT"; mode := lit "DETAIL";
             export_history := false;
             rough := lit "Write me a sales email"; answers := [];
             tokens := []; extras := [];
             optimized := build_prompt (lit "Write me a sales email")
                            (lit "ChatGPT") (lit "DETAIL") [] [] [] |}
  /\ files (snd (render (Sample.at_time Sample.monday
                           (Sample.ticking (lit "Auto-save session history (CSV)")
                              false Sample.sales_email))
                        Sample.no_files))
     = Sample.no_files.
Proof.
  assert (H1 : history_csv Sample.no_files <> Some Unparseable)
    by (simpl; discriminate).
  assert (H2 : fst (form (Sample.at_time Sample.monday
                  (Sample.ticking (lit "Auto-save session history (CSV)") false
                     Sample.sales_email))
               (Sample.blank Sample.no_files))
     = Ok {| target_ai := lit "ChatGPT"; mode := lit "DETAIL";
             export_history := false;
             rough := lit "Write me a sales email"; answers := [];
             tokens := []; extras := [];
             optimized := build_prompt (lit "Write me a sales email")
                            (lit "ChatGPT") (lit "DETAIL") [] [] [] |})
    by (vm_compute; reflexivity).
  split; [exact H1|]. split; [exact H2|].
  destruct (@render_without_save_keeps_files _ _ _ H1 H2 (or_introl eq_refl))
    as (before & ->).
  reflexivity.
Defined.

(** X14: a render to which the user has brought nothing (nothing typed as rough
    idea, template picker untouched) assembles no prompt and, over a
    readable or absent log, leaves the files as they are: opening the page
    does not add a row to the log. *)
Theorem fresh_session_logs_nothing (r : Run) (fs : Files) (f : Form) :
  typed (widgets r) (lit "Type anything (the messier the better):") = None ->
  selected (widgets r) (lit "Pick a template") = None ->
  fst (form r {| files := fs; page := [] |}) = Ok f ->
  rough f = [] /\ optimized f = []
  /\ (history_csv fs <> Some Unparseable -> files (snd (render r fs)) = fs).
Proof.
  intros Hty Hpick Hf.
  destruct (form_values _ _ Hf) as (sel & Hsel & _ & _ & _ & Hro & _).
  rewrite (@untouched_picker_none _ r _ Hpick) in Hsel. injection Hsel as <-.
  unfold text_value in Hro. rewrite Hty in Hro.
  destruct (form r {| files := fs; page := [] |}) as [o w1] eqn:E.
  cbn [fst] in Hf. subst o.
  destruct (form_inv _ _ E) as (before & -> & _ & Ho & _).
  assert (Hopt : optimized f = []).
  { rewrite Ho. apply build_prompt_blank. now rewrite Hro. }
  split; [exact Hro|]. split; [exact Hopt|].
  intros Hh. unfold render. rewrite script_run, E.
  rewrite history_keeps; [reflexivity | assumption |].
  rewrite Hopt. apply andb_false_r.
Qed.

Lemma fresh_session_logs_nothing_witness :
  typed Sample.untouched (lit "Type anything (the messier the better):") = None
  /\ selected Sample.untouched (lit "Pick a template") = None
  /\ fst (form (Sample.at_time Sample.monday Sample.untouched)
               (Sample.blank Sample.with_store))
     = Ok {| target_ai := lit "ChatGPT"; mode := lit "DETAIL"; export_history := true;
             rough := []; answers := []; tokens := []; extras := []; optimized := [] |}
  /\ files (snd (render (Sample.at_time Sample.monday Sample.untouched)
                        Sample.with_store)) = Sample.with_store.
Proof.
  assert (H : fst (form (Sample.at_time Sample.monday Sample.untouched)
               (Sample.blank Sample.with_store))
     = Ok {| target_ai := lit "ChatGPT"; mode := lit "DETAIL"; export_history := true;
             rough := []; answers := []; tokens := []; extras := []; optimized := [] |})
    by (vm_compute; reflexivity).
  split; [reflexivity|]. split; [reflexivity|]. split; [exact H|].
  refine (proj2 (proj2 (@fresh_session_logs_nothing
                          (Sample.at_time Sample.monday Sample.untouched)
                          Sample.with_store _ eq_refl eq_refl H)) _).
  simpl. discriminate.
Defined.

(** X15: a render with auto-save on and a rough idea that is not blank, over a
    readable or absent log, ends without exception and rewrites the log
    with one row more.  Without a file, the log is the one new row as
    built: the clock reading, the form values as typed, the answers as
    JSON and the length of the prompt, which is not zero.  Over a file,
    the log is the rows of the file as pandas reads them, in their order,
    followed by the new row as pandas concatenates it.  The template file
    is not touched. *)
Theorem saving_render_appends_one_row (r : Run) (fs : Files) (f : Form) :
  history_csv fs <> Some Unparseable ->
  fst (form r {| files := fs; page := [] |}) = Ok f ->
  export_history f = true ->
  forallb isspace (rough f) = false ->
  let row := {| timestamp := utcnow_isoformat r;
                row_target_ai := target_ai f;
                row_mode := mode f;
                row_rough := rough f;
                answers_json := Json.dumps (answers f);
                row_tokens := tokens f;
                row_extras := extras f;
                optimized_len :=
                  List.length (build_prompt (rough f) (target_ai f) (mode f)
                                 (answers f) (tokens f) (extras f)) |} in
  let fs' := files (snd (render r fs)) in
  fst (render r fs) = Ok f
  /\ templates_csv fs' = templates_csv fs
  /\ (history_csv fs = None -> history_csv fs' = Some (Table [row]))
  /\ (forall rows,
        history_csv fs = Some (Table rows) ->
        history_csv fs'
        = Some (Table (map (reread (pandas r) rows) rows
                       ++ [appended (pandas r) (map (reread (pandas r) rows) rows)
                                    row])))
  /\ List.length (log_rows fs') = S (List.length (log_rows fs))
  /\ (0 < optimized_len row)%nat.
Proof.
  intros Hh Hf He Hb row fs'. unfold fs'. clear fs'.
  destruct (form r {| files := fs; page := [] |}) as [o w1] eqn:E.
  cbn [fst] in Hf. subst o.
  destruct (form_inv _ _ E) as (before & -> & _ & Ho & _).
  pose proof (blank_rough_empty_prompt f Ho) as Ht. rewrite Hb in Ht.
  cbn [negb] in Ht.
  assert (Ec : export_history f && truthy (optimized f) = true)
    by now rewrite He, Ht.
  assert (Hrow : history_row (utcnow_isoformat r) f = row)
    by (unfold row, history_row; now rewrite Ho).
  unfold render. rewrite script_run, E.
  rewrite history_saves by assumption.
  cbn [fst snd files templates_csv history_csv log_rows].
  split; [reflexivity|]. split; [reflexivity|]. split; [|split; [|split]].
  - intros Hn. unfold log_after_save, file_rows. now rewrite Hn, Hrow.
  - intros rows Hr. unfold log_after_save, file_rows, concat_row, read_back.
    now rewrite Hr, Hrow.
  - apply log_after_save_length.
  - unfold row. cbn [optimized_len]. rewrite <- Ho.
    destruct (optimized f); [discriminate | simpl; lia].
Qed.

Lemma saving_render_appends_one_row_witness :
  history_csv Sample.no_files <> Some Unparseable
  /\ fst (form (Sample.at_time Sample.monday Sample.sales_email)
               (Sample.blank Sample.no_files)) = Ok Sample.sales_email_form
  /\ export_history Sample.sales_email_form = true
  /\ forallb isspace (rough Sample.sales_email_form) = false
  /\ fst (render (Sample.at_time Sample.monday Sample.sales_email) Sample.no_files)
     = Ok Sample.sales_email_form.
Proof.
  assert (H1 : history_csv Sample.no_files <> Some Unparseable)
    by (simpl; discriminate).
  assert (H2 : fst (form (Sample.at_time Sample.monday Sample.sales_email)
               (Sample.blank Sample.no_files)) = Ok Sample.sales_email_form)
    by (vm_compute; reflexivity).
  assert (H3 : export_history Sample.sales_email_form = true) by reflexivity.
  assert (H4 : forallb isspace (rough Sample.sales_email_form) = false)
    by reflexivity.
  repeat (split; [assumption|]).
  exact (proj1 (@saving_render_appends_one_row _ _ _ H1 H2 H3 H4)).
Defined.

(** ** The log over any sequence of renders *)

(** One render over a readable or absent log: the log stays readable and
    either keeps its rows or is rewritten with one row more. *)
Lemma render_step (r : Run) (fs : Files) :
  history_csv fs <> Some Unparseable ->
  let fs' := files (snd (render r fs)) in
  history_csv fs' <> Some Unparseable
  /\ (fs' = fs \/ exists f, log_rows fs' = log_after_save r f (file_rows fs)).
Proof.
  intros Hh fs'. unfold fs', render. rewrite script_run.
  destruct (log_blind_run r {| files := fs; page := [] |} form_log_blind)
    as (o & els & _ & E).
  rewrite E. cbn [files page app]. destruct o as [f|e].
  - destruct (export_history f && truthy (optimized f)) eqn:Ec.
    + rewrite history_saves by assumption. cbn [snd files history_csv log_rows].
      split; [discriminate|]. right. now exists f.
    + rewrite history_keeps by assumption. cbn [snd files].
      split; [assumption | now left].
  - cbn [snd files]. split; [assumption | now left].
Qed.

(** X16: over a readable or absent log, any sequence of renders (saving or
    not, stopped by an unreadable template file or not) leaves a readable
    log that has at least the rows it had and at most one more per render;
    the template file stays as it is.  When pandas reads the time stamps
    as the text they are, the time stamps that were in the log stay first,
    in their order, and those after them are clock readings of renders of
    the sequence. *)
Theorem log_only_grows (rs : list Run) (fs : Files) :
  history_csv fs <> Some Unparseable ->
  let fs' := files_after (renders rs fs) fs in
  templates_csv fs' = templates_csv fs
  /\ history_csv fs' <> Some Unparseable
  /\ (List.length (log_rows fs) <= List.length (log_rows fs'))%nat
  /\ (List.length (log_rows fs') <= List.length (log_rows fs) + List.length rs)%nat
  /\ (Forall (fun r => keeps_timestamps (pandas r)) rs ->
      exists added,
        map timestamp (log_rows fs') = map timestamp (log_rows fs) ++ added
        /\ incl added (map utcnow_isoformat rs)).
Proof.
  revert fs. induction rs as [|r rs IH]; intros fs Hh fs'.
  - unfold fs'. cbn. repeat split; try assumption; try lia.
    intros _. exists []. split; [now rewrite app_nil_r | intros x []].
  - unfold fs'. cbn [renders]. rewrite files_after_cons.
    destruct (@render_step r fs Hh) as (Hh' & Hstep).
    destruct (IH _ Hh') as (Ht & Hr & Hlo & Hhi & Hts).
    split; [rewrite Ht; apply render_keeps_templates|].
    split; [exact Hr|].
    assert (Hone : (List.length (log_rows fs)
                    <= List.length (log_rows (files (snd (render r fs))))
                    <= S (List.length (log_rows fs)))%nat).
    { destruct Hstep as [-> | (f & ->)]; [lia|].
      rewrite log_after_save_length. lia. }
    split; [lia|]. split; [cbn [List.length]; lia|].
    intros Hk. inversion Hk as [|? ? Hk1 Hk2]; subst.
    destruct (Hts Hk2) as (added & Hadd & Hincl).
    destruct Hstep as [Hsame | (f & Hrows)].
    + exists added. rewrite Hadd, Hsame. split; [reflexivity|].
      intros x Hx. right. now apply Hincl.
    + exists (utcnow_isoformat r :: added).
      rewrite Hadd, Hrows, log_after_save_timestamps by assumption.
      rewrite <- app_assoc. split; [reflexivity|].
      intros x [<- | Hx]; [now left | right; now apply Hincl].
Qed.

Lemma log_only_grows_witness :
  history_csv Sample.no_files <> Some Unparseable
  /\ templates_csv
       (files_after
          (renders [Sample.at_time Sample.monday Sample.untouched;
                    Sample.at_time Sample.tuesday Sample.sales_email]
                   Sample.no_files)
          Sample.no_files)
     = templates_csv Sample.no_files.
Proof.
  assert (H : history_csv Sample.no_files <> Some Unparseable)
    by (simpl; discriminate).
  split; [exact H|].
  exact (proj1 (@log_only_grows
                  [Sample.at_time Sample.monday Sample.untouched;
                   Sample.at_time Sample.tuesday Sample.sales_email]
                  Sample.no_files H)).
Defined.

Lemma render_unreadable_log (r : Run) (fs : Files) :
  history_csv fs = Some Unparseable ->
  files (snd (render r fs)) = fs /\ exists e, fst (render r fs) = Raised e.
Proof.
  intros Hh. unfold render. rewrite script_run.
  destruct (log_blind_run r {| files := fs; page := [] |} form_log_blind)
    as (o & els & _ & E).
  rewrite E. cbn [files page app]. destruct o as [f|e].
  - rewrite history_unreadable by exact Hh. split; [reflexivity | now eexists].
  - split; [reflexivity | now eexists].
Qed.

(** X17: an unreadable log is never repaired or overwritten: however many
    renders follow, each ends with an exception and the files stay exactly
    as they were. *)
Theorem unreadable_log_never_overwritten (rs : list Run) (fs : Files) :
  history_csv fs = Some Unparseable ->
  files_after (renders rs fs) fs = fs
  /\ Forall (fun res => exists e, fst res = Raised e) (renders rs fs).
Proof.
  intros Hh. induction rs as [|r rs IH]; [split; [reflexivity | constructor]|].
  cbn [renders]. rewrite files_after_cons.
  destruct (@render_unreadable_log r fs Hh) as (Hfs & He).
  rewrite Hfs. destruct IH as (IH1 & IH2). split; [exact IH1|].
  constructor; assumption.
Qed.

Lemma unreadable_log_never_overwritten_witness :
  history_csv Sample.broken_log = Some Unparseable
  /\ files_after
       (renders [Sample.at_time Sample.monday Sample.sales_email;
                 Sample.at_time Sample.tuesday Sample.sales_email_answered]
                Sample.broken_log)
       Sample.broken_log
     = Sample.broken_log.
Proof.
  split; [reflexivity|].
  exact (proj1 (@unreadable_log_never_overwritten
                  [Sample.at_time Sample.monday Sample.sales_email;
                   Sample.at_time Sample.tuesday Sample.sales_email_answered]
                  Sample.broken_log eq_refl)).
Defined.

(** ** The answer fields *)

Lemma left_column_basic_log_blind mode selected :
  str_eqb mode (lit "DETAIL") = false ->
  log_blind only_tokens_input (left_column mode selected).
Proof.
  intros H. unfold left_column.
  repeat first
    [ match goal with
      | |- log_blind _ (if str_eqb mode _ then _ else _) => rewrite H
      end
    | log_blind_step ].
Qed.

Lemma sidebar_no_text_input df : log_blind only_tokens_input (sidebar df).
Proof. unfold sidebar, pick_template. repeat log_blind_step. Qed.

Lemma right_column_no_text_input rough target_ai mode answers tokens extras :
  log_blind only_tokens_input
    (right_column rough target_ai mode answers tokens extras).
Proof. unfold right_column. repeat log_blind_step. Qed.

Lemma left_column_detail_inputs selected r w x w' :
  left_column (lit "DETAIL") selected r w = (Ok x, w') ->
  In (Left, TextInput (lit "Answer 1") []) (page w')
  /\ In (Left, TextInput (lit "Answer 2") []) (page w')
  /\ In (Left, TextInput (lit "Answer 3") []) (page w').
Proof.
  unfold left_column. rewrite str_eqb_refl.
  unfold bind, emit, text_input, text_area, ret. cbv beta iota.
  intros H. injection H as _ <-. cbn [page].
  repeat rewrite <- app_assoc. cbn [app].
  repeat split; apply in_or_app; right; cbn [In].
  - do 4 right. now left.
  - do 5 right. now left.
  - do 6 right. now left.
Qed.

(** X18: the three answer fields are on the page in DETAIL mode; in any other
    mode the only one-line text input of the page is the length limit, so
    no answer can be entered. *)
Theorem answer_fields_only_in_detail (r : Run) (fs : Files) (f : Form) :
  fst (form r {| files := fs; page := [] |}) = Ok f ->
  let p := page (snd (form r {| files := fs; page := [] |})) in
  (mode f = lit "DETAIL" ->
   In (Left, TextInput (lit "Answer 1") []) p
   /\ In (Left, TextInput (lit "Answer 2") []) p
   /\ In (Left, TextInput (lit "Answer 3") []) p)
  /\ (mode f <> lit "DETAIL" ->
      forall c label v,
        In (c, TextInput label v) p ->
        label = lit "Max length / tokens (optional)").
Proof.
  intros Hf p. unfold p. clear p.
  destruct (form r {| files := fs; page := [] |}) as [o w'] eqn:H.
  cbn [fst snd] in *. subst o. unfold form in H.
  apply bind_ok_inv in H as (? & w1 & H1 & H).
  apply bind_ok_inv in H as (df & w2 & H2 & H).
  apply bind_ok_inv in H as ([[[ta md] sel] eh] & w3 & H3 & H).
  apply bind_ok_inv in H as (? & w4 & H4 & H).
  apply bind_ok_inv in H as (? & w5 & H5 & H).
  apply bind_ok_inv in H as ([[[ro an] tk] ex] & w6 & H6 & H).
  apply bind_ok_inv in H as (op & w7 & H7 & H).
  unfold ret in H. injection H as <- <-. cbn [mode]. split.
  - intros ->. destruct (@left_column_detail_inputs _ _ _ _ _ H6) as (I1 & I2 & I3).
    rewrite right_column_run in H7. injection H7 as _ <-. cbn [page].
    repeat split; apply in_or_app; now left.
  - intros Hm. apply str_eqb_neq in Hm.
    apply (log_blind_ok_inv (ok:=only_tokens_input)) in H1 as (els1 & Hok1 & ->);
      [|now apply log_blind_emit].
    apply (log_blind_ok_inv (ok:=only_tokens_input)) in H2 as (els2 & Hok2 & ->);
      [|apply load_templates_log_blind].
    apply (log_blind_ok_inv (ok:=only_tokens_input)) in H3 as (els3 & Hok3 & ->);
      [|apply sidebar_no_text_input].
    apply (log_blind_ok_inv (ok:=only_tokens_input)) in H4 as (els4 & Hok4 & ->);
      [|now apply log_blind_emit].
    apply (log_blind_ok_inv (ok:=only_tokens_input)) in H5 as (els5 & Hok5 & ->);
      [|now apply log_blind_emit].
    apply (log_blind_ok_inv (ok:=only_tokens_input)) in H6 as (els6 & Hok6 & ->);
      [|now apply left_column_basic_log_blind].
    apply (log_blind_ok_inv (ok:=only_tokens_input)) in H7 as (els7 & Hok7 & ->);
      [|apply right_column_no_text_input].
    cbn [files page app]. intros c label v Hin.
    assert (Hall : forallb (fun ce => only_tokens_input (snd ce))
                     ((((((els1 ++ els2) ++ els3) ++ els4) ++ els5) ++ els6) ++ els7)
                   = true).
    { rewrite !forallb_app.
      now rewrite Hok1, Hok2, Hok3, Hok4, Hok5, Hok6, Hok7. }
    rewrite forallb_forall in Hall. specialize (Hall _ Hin).
    cbn [snd only_tokens_input] in Hall. now apply str_eqb_eq.
Qed.

Lemma answer_fields_only_in_detail_witness :
  fst (form (Sample.at_time Sample.monday Sample.sales_email)
            {| files := Sample.no_files; page := [] |})
  = Ok Sample.sales_email_form
  /\ In (Left, TextInput (lit "Answer 1") [])
        (page (snd (form (Sample.at_time Sample.monday Sample.sales_email)
                         {| files := Sample.no_files; page := [] |}))).
Proof.
  assert (H : fst (form (Sample.at_time Sample.monday Sample.sales_email)
            {| files := Sample.no_files; page := [] |})
  = Ok Sample.sales_email_form) by (vm_compute; reflexivity).
  split; [exact H|].
  exact (proj1 (proj1 (@answer_fields_only_in_detail _ _ _ H) eq_refl)).
Defined.

(** ** What the history section shows *)

(** X19: a render that ends without exception shows last the log as it
    leaves it: the note that nothing is saved when there is no file,
    otherwise the last rows of the file as pandas reads them back, at most
    twenty, in file order, and all of them when the file has twenty rows
    or fewer. *)
Theorem log_display_last_rows (r : Run) (fs : Files) (f : Form) :
  fst (render r fs) = Ok f ->
  let w := snd (render r fs) in
  (exists before, page w = before ++ [(Main, log_display (pandas r) (files w))])
  /\ (history_csv (files w) = None ->
      log_display (pandas r) (files w)
      = Caption (lit "No sessions saved yet. Enable auto-save to log runs."))
  /\ (forall rows, history_csv (files w) = Some (Table rows) ->
        let frame := read_back (pandas r) rows in
        log_display (pandas r) (files w) = Dataframe (tail 20 frame)
        /\ List.length (tail 20 frame) = Nat.min 20 (List.length rows)
        /\ (exists older, frame = older ++ tail 20 frame)
        /\ ((List.length rows <= 20)%nat -> tail 20 frame = frame)).
Proof.
  intros Hf w. split; [|split].
  - unfold w, render in *. rewrite script_run in *.
    destruct (form r {| files := fs; page := [] |}) as [[f0|e] w1] eqn:E;
      [|discriminate].
    destruct (form_inv _ _ E) as (before & -> & _).
    cbn [files page app] in *.
    destruct (history_csv fs) as [[rows|]|] eqn:Eh.
    1, 3: assert (Hh : history_csv
                         (files {| files := fs;
                                   page := before ++ right_elements f0 |})
                       <> Some Unparseable) by (cbn [files]; congruence);
      destruct (export_history f0 && truthy (optimized f0)) eqn:Ec;
      [ rewrite (history_saves _ r _ Hh Ec) | rewrite (history_keeps _ r _ Hh Ec) ];
      cbn [snd files page];
      exists (before ++ right_elements f0
              ++ [(Main, Divider); (Main, Subheader (lit "Session History"))]);
      rewrite <- !app_assoc; reflexivity.
    rewrite history_unreadable in Hf by exact Eh. discriminate.
  - unfold log_display. now intros ->.
  - intros rows Hrows frame. unfold log_display, log_rows. rewrite Hrows.
    fold frame. split; [reflexivity|].
    split; [unfold frame; now rewrite tail_length, read_back_length|].
    split; [apply tail_suffix|].
    intros Hle. unfold tail.
    replace (List.length frame - 20)%nat with 0%nat; [reflexivity|].
    unfold frame. rewrite read_back_length. lia.
Qed.

Lemma log_display_last_rows_witness :
  fst (render (Sample.at_time Sample.monday Sample.sales_email) Sample.no_files)
  = Ok Sample.sales_email_form
  /\ exists before,
       page (snd (render (Sample.at_time Sample.monday Sample.sales_email)
                         Sample.no_files))
       = before ++
         [(Main, log_display Sample.as_written
                   (files (snd (render (Sample.at_time Sample.monday Sample.sales_email)
                                       Sample.no_files))))].
Proof.
  assert (H : fst (render (Sample.at_time Sample.monday Sample.sales_email)
                          Sample.no_files)
              = Ok Sample.sales_email_form) by (vm_compute; reflexivity).
  split; [exact H|].
  exact (proj1 (@log_display_last_rows _ _ _ H)).
Defined.
